(** * python-zwo: the ctypes binding of the ZWO focuser (EAF) and filter
      wheel (EFW) SDKs

    A shallow embedding of [zwo/eaf.py] and [zwo/efw.py].  The vendor
    library is opaque: it is a record of world-passing functions, one per
    entry point of the [_functions_] table.  The binding itself (library
    resolution, the error mapper [__call__], the client methods) is
    translated function by function. *)

From Stdlib Require Import ZArith List String Ascii Bool Lia.
From Stdlib Require Import Strings.Byte.
From Stdlib Require Import DecimalString DecimalZ.
Import ListNotations.

Local Open Scope string_scope.
Local Open Scope Z_scope.

(** ** ctypes data *)

(** The C types named by the prototypes of [_functions_]. *)
Inductive ctype : Type :=
| c_int | c_bool | c_ubyte | c_float | c_char | c_char_p
| POINTER (t : ctype)
| ARRAY (t : ctype) (n : nat)
| Structure (name : string).

(** [CFUNCTYPE(restype, *argtypes)]. *)
Record prototype : Type := CFUNCTYPE { restype : ctype; argtypes : list ctype }.

(** [c_int(v)]: ctypes does no overflow check, the Python integer is
    reduced to a signed 32-bit value. *)
Definition to_c_int (v : Z) : Z := (v + 2 ^ 31) mod 2 ^ 32 - 2 ^ 31.

(** A [c_float] cell is kept as its IEEE-754 single bit pattern; the binding
    only passes it through. *)
Definition float32 : Type := Z.

(** [c_ubyte.value]: the byte as a Python integer. *)
Definition ubyte_value (b : byte) : Z := Z.of_N (Byte.to_N b).

(** What a native function hands back as its C return value: an [int]
    (restype [c_int]) or a [char*] (restype [c_char_p], which ctypes turns
    into [None] for NULL and into [bytes] otherwise). *)
Inductive cresult : Type :=
| RInt (z : Z)
| RCharP (p : option string).

(** Python truthiness of a native result, as tested by [if result]. *)
Definition truthy (r : cresult) : bool :=
  match r with
  | RInt z => negb (z =? 0)
  | RCharP None => false
  | RCharP (Some s) => negb (String.eqb s "")
  end.

(** ** The structures of both families *)

(** [EAF_INFO]: [ID], the 64-byte [Name] buffer, [MaxStep]. *)
Record EAF_INFO : Type := { eaf_ID : Z; eaf_Name : list byte; MaxStep : Z }.

(** [EAF_ID]: eight unsigned bytes. *)
Record EAF_ID : Type := { eaf_id : list byte }.

(** [EFW_INFO]: [ID], the 64-byte [Name] buffer, [slotNum]. *)
Record EFW_INFO : Type := { efw_ID : Z; efw_Name : list byte; slotNum : Z }.

(** [EFW_ID]: eight unsigned bytes. *)
Record EFW_ID : Type := { efw_id : list byte }.

(** ** Python objects returned to the caller *)

Inductive value : Type :=
| VNone
| VBool (b : bool)
| VInt (z : Z)
| VFloat (f : float32)
| VStr (s : string)
| VBytes (s : string)
| VTuple (items : list Z)              (* a tuple of ints *)
| VDict (items : list (string * bool))  (* a dict from str to bool *)
| VEafInfo (info : EAF_INFO)
| VEafId (serial : EAF_ID)
| VEfwInfo (info : EFW_INFO)
| VEfwId (serial : EFW_ID).

(** The Python view of a native result. *)
Definition value_of_cresult (r : cresult) : value :=
  match r with
  | RInt z => VInt z
  | RCharP None => VNone
  | RCharP (Some s) => VBytes s
  end.

(** [str(n)] for a Python integer. *)
Definition str_int (n : Z) : string := NilZero.string_of_int (Z.to_int n).

(** [not x] on a native result. *)
Definition py_not (r : cresult) : bool := negb (truthy r).

(** [seq[:n]] with Python's slice rules: a negative bound counts from the
    end, a bound past the end is clamped. *)
Definition slice_to {A} (n : Z) (l : list A) : list A :=
  if n <? 0 then firstn (Z.to_nat (Z.of_nat (List.length l) + n)) l
  else firstn (Z.to_nat n) l.

(** [int.from_bytes(b, "big")] on a sequence of unsigned bytes. *)
Definition int_from_bytes_big (b : list byte) : Z :=
  fold_left (fun acc x => acc * 256 + ubyte_value x) b 0.

(** [s.decode("ascii")] accepts only bytes below 0x80. *)
Definition is_ascii (s : string) : bool :=
  forallb (fun c => Nat.ltb (nat_of_ascii c) 128) (list_ascii_of_string s).

(** ** Exceptions and the binding monad *)

Inductive exn : Type :=
| ZwoFocuserError (msg : string)
| ZwoFilterWheelError (msg : string)
| ValueError (offending : cresult) (enum : string)
| KeyError (key : string)
| TypeError (msg : string)
| UnicodeDecodeError (s : string)
| OSError (path : list string).

Inductive result (A : Type) : Type :=
| Return (a : A)
| Raise (e : exn).
Arguments Return {A} a.
Arguments Raise {A} e.

(** What the process does to the outside, in order: libraries loaded and
    native entry points invoked. *)
Inductive event : Type :=
| LoadLibrary (global : bool) (path : list string)
| NativeCall (name : string).

(** The state threaded through the binding: the native world (devices and
    SDK internals) and the trace of events so far. *)
Record state (W : Type) : Type := mkState { world : W; trace : list event }.
Arguments mkState {W} world trace.
Arguments world {W} s.
Arguments trace {W} s.

Definition M (W A : Type) : Type := state W -> result A * state W.

Definition ret {W A} (a : A) : M W A := fun s => (Return a, s).

Definition raise {W A} (e : exn) : M W A := fun s => (Raise e, s).

Definition bind {W A B} (c : M W A) (k : A -> M W B) : M W B :=
  fun s =>
    match c s with
    | (Return a, s') => k a s'
    | (Raise e, s') => (Raise e, s')
    end.

Declare Scope binding_scope.
Delimit Scope binding_scope with binding.
Notation "x <- c ;; k" := (bind c (fun x => k))
  (at level 100, c at next level, right associativity) : binding_scope.
Notation "' p <- c ;; k" := (bind c (fun x => let p := x in k))
  (at level 100, p pattern, c at next level, right associativity) : binding_scope.
Notation "c ;; k" := (bind c (fun _ => k))
  (at level 100, right associativity) : binding_scope.
Local Open Scope binding_scope.

(** A native function: it reads and changes the world and returns. *)
Definition native (W A : Type) : Type := W -> A * W.

(** [d[k]] on a dict literal kept as an association list. *)
Fixpoint dict_get {V} (d : list (string * V)) (k : string) : result V :=
  match d with
  | [] => Raise (KeyError k)
  | (k', v) :: d' => if String.eqb k' k then Return v else dict_get d' k
  end.

(** [name in special_names]. *)
Definition set_mem (x : string) (s : list string) : bool :=
  existsb (String.eqb x) s.

(** Run a pure, possibly failing computation inside the binding. *)
Definition lift {W A} (r : result A) : M W A := fun s => (r, s).

(** ** The platform the module is imported on *)

(** [os.name], [platform.architecture()[0]], [os.path.dirname(__file__)],
    and which files the dynamic loader is able to load. *)
Record platform : Type := {
  os_name : string;
  architecture0 : string;
  here : string;
  loadable : list string -> bool
}.

(** [CDLL(path, mode)] and [cdll.LoadLibrary(path)]: the handle is the path
    that was loaded; an unloadable file raises [OSError].  A path is kept as
    the list of components given to [os.path.join]. *)
Definition CDLL {W} (env : platform) (global : bool) (path : list string)
  : M W (list string) :=
  fun s =>
    if loadable env path
    then (Return path, mkState (world s) (trace s ++ [LoadLibrary global path]))
    else (Raise (OSError path), s).

(** The native call itself, [prototype((self.name, _lib))( *arguments )]:
    the world changes, the by-reference cells come back with what the
    library wrote, and the invocation is recorded. *)
Definition invoke {W R} (name : string) (fn : native W R) : M W R :=
  fun s =>
    let (r, w') := fn (world s) in
    (Return r, mkState w' (trace s ++ [NativeCall name])).

(** Results of restype [c_int], with or without by-reference cells, and of
    restype [c_char_p]. *)
Definition int_fn {W C} (fn : native W (Z * C)) : native W (cresult * C) :=
  fun w => let '((z, c), w') := fn w in ((RInt z, c), w').

Definition int_fn0 {W} (fn : native W Z) : native W (cresult * unit) :=
  fun w => let (z, w') := fn w in ((RInt z, tt), w').

Definition char_p_fn0 {W} (fn : native W (option string))
  : native W (cresult * unit) :=
  fun w => let (p, w') := fn w in ((RCharP p, tt), w').

(** The [bytes] behind a result of restype [c_char_p], [None] for NULL. *)
Definition char_p_of (r : cresult) : option string :=
  match r with RCharP p => p | RInt _ => None end.

(** The integer behind a result of restype [c_int]. *)
Definition int_of (r : cresult) : Z :=
  match r with RInt z => z | RCharP _ => 0 end.

(** * zwo/eaf.py: the focuser *)
Module eaf.

(** The entry points of [libEAFFocuser], with the signatures of
    [_functions_]: arguments passed by value first, then the initial
    contents of the cells passed by reference; the result is the C return
    value and the final contents of those cells. *)
Module sdk.
#[local] Set Implicit Arguments.
Record t (W : Type) : Type := {
  EAFGetNum : native W Z;
  EAFGetProductIDs : list Z -> native W (Z * list Z);
  EAFCheck : Z -> Z -> native W Z;
  EAFGetID : Z -> Z -> native W (Z * Z);
  EAFOpen : Z -> native W Z;
  EAFGetProperty : Z -> EAF_INFO -> native W (Z * EAF_INFO);
  EAFMove : Z -> Z -> native W Z;
  EAFStop : Z -> native W Z;
  EAFIsMoving : Z -> bool * bool -> native W (Z * (bool * bool));
  EAFGetPosition : Z -> Z -> native W (Z * Z);
  EAFResetPostion : Z -> Z -> native W Z;
  EAFGetTemp : Z -> float32 -> native W (Z * float32);
  EAFSetBeep : Z -> bool -> native W Z;
  EAFGetBeep : Z -> bool -> native W (Z * bool);
  EAFSetMaxStep : Z -> Z -> native W Z;
  EAFGetMaxStep : Z -> Z -> native W (Z * Z);
  EAFStepRange : Z -> Z -> native W (Z * Z);
  EAFSetReverse : Z -> bool -> native W Z;
  EAFGetReverse : Z -> bool -> native W (Z * bool);
  EAFSetBacklash : Z -> Z -> native W Z;
  EAFGetBacklash : Z -> Z -> native W (Z * Z);
  EAFClose : Z -> native W Z;
  EAFGetSDKVersion : native W (option string);
  EAFGetFirmwareVersion : Z -> byte * byte * byte -> native W (Z * (byte * byte * byte));
  EAFGetSerialNumber : Z -> EAF_ID -> native W (Z * EAF_ID);
  EAFSetID : Z -> EAF_ID -> native W Z
}.
End sdk.

(** The lookup table of the library resolver. *)
Definition arch_table : list (string * list (string * (string * string))) :=
  [("posix", [("32bit", ("linux32", "libEAFFocuser.so"));
              ("64bit", ("linux64", "libEAFFocuser.so"))]);
   ("nt",    [("32bit", ("win32", "EAF_focuser.dll"));
              ("64bit", ("win64", "EAF_focuser.dll"))])].

(** [arch = {...}[os.name][architecture()[0]]]. *)
Definition arch (env : platform) : result (string * string) :=
  match dict_get arch_table (os_name env) with
  | Return by_width => dict_get by_width (architecture0 env)
  | Raise e => Raise e
  end.

Definition EAF_ID_MAX : nat := 128.

Inductive EAF_ERROR_CODE : Type :=
| EAF_SUCCESS
| EAF_ERROR_INVALID_INDEX
| EAF_ERROR_INVALID_ID
| EAF_ERROR_INVALID_VALUE
| EAF_ERROR_REMOVED
| EAF_ERROR_MOVING
| EAF_ERROR_ERROR_STATE
| EAF_ERROR_GENERAL_ERROR
| EAF_ERROR_NOT_SUPPORTED
| EAF_ERROR_CLOSED
| EAF_ERROR_END.

(** The members in definition order. *)
Definition members : list EAF_ERROR_CODE :=
  [EAF_SUCCESS; EAF_ERROR_INVALID_INDEX; EAF_ERROR_INVALID_ID;
   EAF_ERROR_INVALID_VALUE; EAF_ERROR_REMOVED; EAF_ERROR_MOVING;
   EAF_ERROR_ERROR_STATE; EAF_ERROR_GENERAL_ERROR; EAF_ERROR_NOT_SUPPORTED;
   EAF_ERROR_CLOSED; EAF_ERROR_END].

(** [member.value]: [auto()] continues from the previous value. *)
Definition code_value (c : EAF_ERROR_CODE) : Z :=
  match c with
  | EAF_SUCCESS => 0
  | EAF_ERROR_INVALID_INDEX => 1
  | EAF_ERROR_INVALID_ID => 2
  | EAF_ERROR_INVALID_VALUE => 3
  | EAF_ERROR_REMOVED => 4
  | EAF_ERROR_MOVING => 5
  | EAF_ERROR_ERROR_STATE => 6
  | EAF_ERROR_GENERAL_ERROR => 7
  | EAF_ERROR_NOT_SUPPORTED => 8
  | EAF_ERROR_CLOSED => 9
  | EAF_ERROR_END => -1
  end.

(** [member.name]. *)
Definition code_name (c : EAF_ERROR_CODE) : string :=
  match c with
  | EAF_SUCCESS => "EAF_SUCCESS"
  | EAF_ERROR_INVALID_INDEX => "EAF_ERROR_INVALID_INDEX"
  | EAF_ERROR_INVALID_ID => "EAF_ERROR_INVALID_ID"
  | EAF_ERROR_INVALID_VALUE => "EAF_ERROR_INVALID_VALUE"
  | EAF_ERROR_REMOVED => "EAF_ERROR_REMOVED"
  | EAF_ERROR_MOVING => "EAF_ERROR_MOVING"
  | EAF_ERROR_ERROR_STATE => "EAF_ERROR_ERROR_STATE"
  | EAF_ERROR_GENERAL_ERROR => "EAF_ERROR_GENERAL_ERROR"
  | EAF_ERROR_NOT_SUPPORTED => "EAF_ERROR_NOT_SUPPORTED"
  | EAF_ERROR_CLOSED => "EAF_ERROR_CLOSED"
  | EAF_ERROR_END => "EAF_ERROR_END"
  end.

(** [EAF_ERROR_CODE(result)]: the member with that value; the enum raises
    [ValueError] when there is none. *)
Definition lookup_code (r : cresult) : result EAF_ERROR_CODE :=
  match r with
  | RInt z =>
      match find (fun c => code_value c =? z) members with
      | Some c => Return c
      | None => Raise (ValueError r "EAF_ERROR_CODE")
      end
  | RCharP _ => Raise (ValueError r "EAF_ERROR_CODE")
  end.

(** [ZwoEafDevice._functions_]. *)
Definition _functions_ : list (string * prototype) :=
  [("EAFGetNum", CFUNCTYPE c_int []);
   ("EAFGetProductIDs", CFUNCTYPE c_int [POINTER (ARRAY c_int EAF_ID_MAX)]);
   ("EAFCheck", CFUNCTYPE c_int [c_int; c_int]);
   ("EAFGetID", CFUNCTYPE c_int [c_int; POINTER c_int]);
   ("EAFOpen", CFUNCTYPE c_int [c_int]);
   ("EAFGetProperty", CFUNCTYPE c_int [c_int; POINTER (Structure "EAF_INFO")]);
   ("EAFMove", CFUNCTYPE c_int [c_int; c_int]);
   ("EAFStop", CFUNCTYPE c_int [c_int]);
   ("EAFIsMoving", CFUNCTYPE c_int [c_int; POINTER c_bool; POINTER c_bool]);
   ("EAFGetPosition", CFUNCTYPE c_int [c_int; POINTER c_int]);
   ("EAFResetPostion", CFUNCTYPE c_int [c_int; c_int]);
   ("EAFGetTemp", CFUNCTYPE c_int [c_int; POINTER c_float]);
   ("EAFSetBeep", CFUNCTYPE c_int [c_int; c_bool]);
   ("EAFGetBeep", CFUNCTYPE c_int [c_int; POINTER c_bool]);
   ("EAFSetMaxStep", CFUNCTYPE c_int [c_int; c_int]);
   ("EAFGetMaxStep", CFUNCTYPE c_int [c_int; POINTER c_int]);
   ("EAFStepRange", CFUNCTYPE c_int [c_int; POINTER c_int]);
   ("EAFSetReverse", CFUNCTYPE c_int [c_int; c_bool]);
   ("EAFGetReverse", CFUNCTYPE c_int [c_int; POINTER c_bool]);
   ("EAFSetBacklash", CFUNCTYPE c_int [c_int; c_int]);
   ("EAFGetBacklash", CFUNCTYPE c_int [c_int; POINTER c_int]);
   ("EAFClose", CFUNCTYPE c_int [c_int]);
   ("EAFGetSDKVersion", CFUNCTYPE c_char_p []);
   ("EAFGetFirmwareVersion",
    CFUNCTYPE c_int [c_int; POINTER c_ubyte; POINTER c_ubyte; POINTER c_ubyte]);
   ("EAFGetSerialNumber", CFUNCTYPE c_int [c_int; POINTER (Structure "EAF_ID")]);
   ("EAFSetID", CFUNCTYPE c_int [c_int; Structure "EAF_ID"])].

(** The allow-list of [__call__]. *)
Definition special_names : list string :=
  ["EAFGetNum"; "EAFGetProductIDs"; "EAFGetSDKVersion"; "EAFCheck"].

Section Binding.
Context {W : Type}.
Variable env : platform.
Variable lib : sdk.t W.

(** [_load_lib(arch, name)]. *)
Definition _load_lib (arch name : string) : M W (list string) :=
  (if String.eqb (os_name env) "posix"
   then (_ <- CDLL env true ["libudev.so"] ;; ret tt)
   else ret tt) ;;
  CDLL env false [here env; "libs"; arch; name].

(** The module body up to [_lib = _load_lib( *arch )]: what importing
    [zwo.eaf] does before any class exists. *)
Definition import_module : M W (list string) :=
  a <- lift (arch env) ;;
  _load_lib (fst a) (snd a).

(** A script that uses the module, as [example/example-eaf.py] does:
    [from zwo.eaf import Focuser] runs the module body, and only then can the
    script's own statements run. *)
Definition script {A} (body : M W A) : M W A :=
  _ <- import_module ;;
  body.

(** [ZwoEafDevice.__getattr__]: remember the name, fetch the prototype.
    The pair stands for [partial(self.__call__, prototype)] together with
    [self.name]. *)
Definition __getattr__ (name : string) : M W (string * prototype) :=
  proto <- lift (dict_get _functions_ name) ;;
  ret (name, proto).

(** [ZwoEafDevice.__call__]. *)
Definition __call__ {C} (self : string * prototype) (fn : native W (cresult * C))
  : M W (cresult * C) :=
  let self_name := fst self in
  '(result, cells) <- invoke self_name fn ;;
  if truthy result && negb (set_mem self_name special_names)
  then (code <- lift (lookup_code result) ;;
        raise (ZwoFocuserError (code_name code)))
  else ret (result, cells).

(** [self._eaf.<name>( *arguments )]. *)
Definition _eaf {C} (name : string) (fn : native W (cresult * C))
  : M W (cresult * C) :=
  self <- __getattr__ name ;;
  __call__ self fn.

(** ** class Focuser *)

Definition EAFGetNum : M W value :=
  '(r, _) <- _eaf "EAFGetNum" (int_fn0 (sdk.EAFGetNum lib)) ;;
  ret (value_of_cresult r).

Definition EAFGetProductIDs : M W value :=
  let pid_array := repeat 0 EAF_ID_MAX in
  '(pid_array_len, pid_array) <-
    _eaf "EAFGetProductIDs" (int_fn (sdk.EAFGetProductIDs lib pid_array)) ;;
  ret (VTuple (slice_to (int_of pid_array_len) pid_array)).

Definition EAFCheck (vid pid : Z) : M W value :=
  '(r, _) <- _eaf "EAFCheck" (int_fn0 (sdk.EAFCheck lib (to_c_int vid) (to_c_int pid))) ;;
  ret (value_of_cresult r).

Definition EAFGetID (index : Z) : M W value :=
  let ids := 0 in
  '(_, ids) <- _eaf "EAFGetID" (int_fn (sdk.EAFGetID lib (to_c_int index) ids)) ;;
  ret (VInt ids).

Definition EAFOpen (ids : Z) : M W value :=
  '(r, _) <- _eaf "EAFOpen" (int_fn0 (sdk.EAFOpen lib (to_c_int ids))) ;;
  ret (VBool (py_not r)).

Definition EAFGetProperty (ids : Z) : M W value :=
  let info := {| eaf_ID := 0; eaf_Name := repeat x00 64; MaxStep := 0 |} in
  '(_, info) <- _eaf "EAFGetProperty" (int_fn (sdk.EAFGetProperty lib (to_c_int ids) info)) ;;
  ret (VEafInfo info).

Definition EAFMove (ids position : Z) : M W value :=
  '(r, _) <- _eaf "EAFMove" (int_fn0 (sdk.EAFMove lib (to_c_int ids) (to_c_int position))) ;;
  ret (VBool (py_not r)).

Definition EAFStop (ids : Z) : M W value :=
  '(r, _) <- _eaf "EAFStop" (int_fn0 (sdk.EAFStop lib (to_c_int ids))) ;;
  ret (VBool (py_not r)).

Definition EAFIsMoving (ids : Z) : M W value :=
  let moving := false in
  let hand_control := false in
  '(_, (moving, hand_control)) <-
    _eaf "EAFIsMoving" (int_fn (sdk.EAFIsMoving lib (to_c_int ids) (moving, hand_control))) ;;
  ret (VDict [("moving", moving); ("hand_control", hand_control)]).

Definition EAFGetPosition (ids : Z) : M W value :=
  let position := 0 in
  '(_, position) <- _eaf "EAFGetPosition" (int_fn (sdk.EAFGetPosition lib (to_c_int ids) position)) ;;
  ret (VInt position).

Definition EAFResetPostion (ids position : Z) : M W value :=
  '(r, _) <-
    _eaf "EAFResetPostion" (int_fn0 (sdk.EAFResetPostion lib (to_c_int ids) (to_c_int position))) ;;
  ret (VBool (py_not r)).

Definition EAFGetTemp (ids : Z) : M W value :=
  let temperature : float32 := 0 in
  '(_, temperature) <- _eaf "EAFGetTemp" (int_fn (sdk.EAFGetTemp lib (to_c_int ids) temperature)) ;;
  ret (VFloat temperature).

Definition EAFSetBeep (ids : Z) (beep : bool) : M W value :=
  '(r, _) <- _eaf "EAFSetBeep" (int_fn0 (sdk.EAFSetBeep lib (to_c_int ids) beep)) ;;
  ret (VBool (py_not r)).

Definition EAFGetBeep (ids : Z) : M W value :=
  let beep := false in
  '(_, beep) <- _eaf "EAFGetBeep" (int_fn (sdk.EAFGetBeep lib (to_c_int ids) beep)) ;;
  ret (VBool beep).

Definition EAFSetMaxStep (ids position : Z) : M W value :=
  '(r, _) <-
    _eaf "EAFSetMaxStep" (int_fn0 (sdk.EAFSetMaxStep lib (to_c_int ids) (to_c_int position))) ;;
  ret (VBool (py_not r)).

Definition EAFGetMaxStep (ids : Z) : M W value :=
  let position := 0 in
  '(_, position) <- _eaf "EAFGetMaxStep" (int_fn (sdk.EAFGetMaxStep lib (to_c_int ids) position)) ;;
  ret (VInt position).

Definition EAFStepRange (ids : Z) : M W value :=
  let interval := 0 in
  '(_, interval) <- _eaf "EAFStepRange" (int_fn (sdk.EAFStepRange lib (to_c_int ids) interval)) ;;
  ret (VInt interval).

Definition EAFSetReverse (ids : Z) (direction : bool) : M W value :=
  '(r, _) <- _eaf "EAFSetReverse" (int_fn0 (sdk.EAFSetReverse lib (to_c_int ids) direction)) ;;
  ret (VBool (py_not r)).

Definition EAFGetReverse (ids : Z) : M W value :=
  let direction := false in
  '(_, direction) <- _eaf "EAFGetReverse" (int_fn (sdk.EAFGetReverse lib (to_c_int ids) direction)) ;;
  ret (VBool direction).

Definition EAFSetBacklash (ids backlash : Z) : M W value :=
  '(r, _) <-
    _eaf "EAFSetBacklash" (int_fn0 (sdk.EAFSetBacklash lib (to_c_int ids) (to_c_int backlash))) ;;
  ret (VBool (py_not r)).

Definition EAFGetBacklash (ids : Z) : M W value :=
  let backlash := 0 in
  '(_, backlash) <- _eaf "EAFGetBacklash" (int_fn (sdk.EAFGetBacklash lib (to_c_int ids) backlash)) ;;
  ret (VInt backlash).

Definition EAFClose (ids : Z) : M W value :=
  '(r, _) <- _eaf "EAFClose" (int_fn0 (sdk.EAFClose lib (to_c_int ids))) ;;
  ret (VBool (py_not r)).

(** [bytes(None)] is a [TypeError]; [bytes(b)] is [b]. *)
Definition EAFGetSDKVersion : M W value :=
  '(r, _) <- _eaf "EAFGetSDKVersion" (char_p_fn0 (sdk.EAFGetSDKVersion lib)) ;;
  match char_p_of r with
  | Some b => if is_ascii b then ret (VStr b) else raise (UnicodeDecodeError b)
  | None => raise (TypeError "cannot convert 'NoneType' object to bytes")
  end.

Definition EAFGetFirmwareVersion (ids : Z) : M W value :=
  let major := x00 in
  let minor := x00 in
  let build := x00 in
  '(_, (major, minor, build)) <-
    _eaf "EAFGetFirmwareVersion"
         (int_fn (sdk.EAFGetFirmwareVersion lib (to_c_int ids) (major, minor, build))) ;;
  ret (VStr (str_int (ubyte_value major) ++ "." ++ str_int (ubyte_value minor)
             ++ "." ++ str_int (ubyte_value build))).

Definition EAFGetSerialNumber (ids : Z) : M W value :=
  let serial := {| eaf_id := repeat x00 8 |} in
  '(_, serial) <-
    _eaf "EAFGetSerialNumber" (int_fn (sdk.EAFGetSerialNumber lib (to_c_int ids) serial)) ;;
  ret (VInt (int_from_bytes_big (eaf_id serial))).

Definition EAFSetID (ids : Z) (eaf_id : EAF_ID) : M W value :=
  '(r, _) <- _eaf "EAFSetID" (int_fn0 (sdk.EAFSetID lib (to_c_int ids) eaf_id)) ;;
  ret (VBool (py_not r)).

End Binding.
End eaf.

(** * zwo/efw.py: the filter wheel *)
Module efw.

(** The entry points of [libEFWFilter], with the signatures of
    [_functions_]; same conventions as for the focuser. *)
Module sdk.
#[local] Set Implicit Arguments.
Record t (W : Type) : Type := {
  EFWGetNum : native W Z;
  EFWGetProductIDs : list Z -> native W (Z * list Z);
  EFWGetID : Z -> Z -> native W (Z * Z);
  EFWOpen : Z -> native W Z;
  EFWClose : Z -> native W Z;
  EFWGetProperty : Z -> EFW_INFO -> native W (Z * EFW_INFO);
  EFWGetPosition : Z -> Z -> native W (Z * Z);
  EFWSetPosition : Z -> Z -> native W Z;
  EFWSetDirection : Z -> bool -> native W Z;
  EFWGetDirection : Z -> bool -> native W (Z * bool);
  EFWCalibrate : Z -> native W Z;
  EFWGetSDKVersion : native W (option string);
  EFWGetHWErrorCode : Z -> Z -> native W (Z * Z);
  EFWGetFirmwareVersion : Z -> byte * byte * byte -> native W (Z * (byte * byte * byte));
  EFWGetSerialNumber : Z -> EFW_ID -> native W (Z * EFW_ID);
  EFWSetID : Z -> EFW_ID -> native W Z
}.
End sdk.

(** The lookup table of the library resolver. *)
Definition arch_table : list (string * list (string * (string * string))) :=
  [("posix", [("32bit", ("linux32", "libEFWFilter.so"));
              ("64bit", ("linux64", "libEFWFilter.so"))]);
   ("nt",    [("32bit", ("win32", "EFW_filter.dll"));
              ("64bit", ("win64", "EFW_filter.dll"))])].

(** [arch = {...}[os.name][architecture()[0]]]. *)
Definition arch (env : platform) : result (string * string) :=
  match dict_get arch_table (os_name env) with
  | Return by_width => dict_get by_width (architecture0 env)
  | Raise e => Raise e
  end.

Definition EFW_ID_MAX : nat := 128.

Inductive EFW_ERROR_CODE : Type :=
| EFW_SUCCESS
| EFW_ERROR_INVALID_INDEX
| EFW_ERROR_INVALID_ID
| EFW_ERROR_INVALID_VALUE
| EFW_ERROR_REMOVED
| EFW_ERROR_MOVING
| EFW_ERROR_ERROR_STATE
| EFW_ERROR_GENERAL_ERROR
| EFW_ERROR_NOT_SUPPORTED
| EFW_ERROR_CLOSED
| EFW_ERROR_END.

(** The members in definition order. *)
Definition members : list EFW_ERROR_CODE :=
  [EFW_SUCCESS; EFW_ERROR_INVALID_INDEX; EFW_ERROR_INVALID_ID;
   EFW_ERROR_INVALID_VALUE; EFW_ERROR_REMOVED; EFW_ERROR_MOVING;
   EFW_ERROR_ERROR_STATE; EFW_ERROR_GENERAL_ERROR; EFW_ERROR_NOT_SUPPORTED;
   EFW_ERROR_CLOSED; EFW_ERROR_END].

(** [member.value]: [auto()] continues from the previous value. *)
Definition code_value (c : EFW_ERROR_CODE) : Z :=
  match c with
  | EFW_SUCCESS => 0
  | EFW_ERROR_INVALID_INDEX => 1
  | EFW_ERROR_INVALID_ID => 2
  | EFW_ERROR_INVALID_VALUE => 3
  | EFW_ERROR_REMOVED => 4
  | EFW_ERROR_MOVING => 5
  | EFW_ERROR_ERROR_STATE => 6
  | EFW_ERROR_GENERAL_ERROR => 7
  | EFW_ERROR_NOT_SUPPORTED => 8
  | EFW_ERROR_CLOSED => 9
  | EFW_ERROR_END => -1
  end.

(** [member.name]. *)
Definition code_name (c : EFW_ERROR_CODE) : string :=
  match c with
  | EFW_SUCCESS => "EFW_SUCCESS"
  | EFW_ERROR_INVALID_INDEX => "EFW_ERROR_INVALID_INDEX"
  | EFW_ERROR_INVALID_ID => "EFW_ERROR_INVALID_ID"
  | EFW_ERROR_INVALID_VALUE => "EFW_ERROR_INVALID_VALUE"
  | EFW_ERROR_REMOVED => "EFW_ERROR_REMOVED"
  | EFW_ERROR_MOVING => "EFW_ERROR_MOVING"
  | EFW_ERROR_ERROR_STATE => "EFW_ERROR_ERROR_STATE"
  | EFW_ERROR_GENERAL_ERROR => "EFW_ERROR_GENERAL_ERROR"
  | EFW_ERROR_NOT_SUPPORTED => "EFW_ERROR_NOT_SUPPORTED"
  | EFW_ERROR_CLOSED => "EFW_ERROR_CLOSED"
  | EFW_ERROR_END => "EFW_ERROR_END"
  end.

(** [EFW_ERROR_CODE(result)]: the member with that value; the enum raises
    [ValueError] when there is none. *)
Definition lookup_code (r : cresult) : result EFW_ERROR_CODE :=
  match r with
  | RInt z =>
      match find (fun c => code_value c =? z) members with
      | Some c => Return c
      | None => Raise (ValueError r "EFW_ERROR_CODE")
      end
  | RCharP _ => Raise (ValueError r "EFW_ERROR_CODE")
  end.

(** [ZwoEfwDevice._functions_]. *)
Definition _functions_ : list (string * prototype) :=
  [("EFWGetNum", CFUNCTYPE c_int []);
   ("EFWGetProductIDs", CFUNCTYPE c_int [POINTER (ARRAY c_int EFW_ID_MAX)]);
   ("EFWGetID", CFUNCTYPE c_int [c_int; POINTER c_int]);
   ("EFWOpen", CFUNCTYPE c_int [c_int]);
   ("EFWClose", CFUNCTYPE c_int [c_int]);
   ("EFWGetProperty", CFUNCTYPE c_int [c_int; POINTER (Structure "EFW_INFO")]);
   ("EFWGetPosition", CFUNCTYPE c_int [c_int; POINTER c_int]);
   ("EFWSetPosition", CFUNCTYPE c_int [c_int; c_int]);
   ("EFWSetDirection", CFUNCTYPE c_int [c_int; c_bool]);
   ("EFWGetDirection", CFUNCTYPE c_int [c_int; POINTER c_bool]);
   ("EFWCalibrate", CFUNCTYPE c_int [c_int]);
   ("EFWGetSDKVersion", CFUNCTYPE c_char_p []);
   ("EFWGetHWErrorCode", CFUNCTYPE c_int [c_int; POINTER c_int]);
   ("EFWGetFirmwareVersion",
    CFUNCTYPE c_int [c_int; POINTER c_ubyte; POINTER c_ubyte; POINTER c_ubyte]);
   ("EFWGetSerialNumber", CFUNCTYPE c_int [c_int; POINTER (Structure "EFW_ID")]);
   ("EFWSetID", CFUNCTYPE c_int [c_int; Structure "EFW_ID"])].

(** The allow-list of [__call__]. *)
Definition special_names : list string :=
  ["EFWGetNum"; "EFWGetProductIDs"; "EFWGetSDKVersion"].

Section Binding.
Context {W : Type}.
Variable env : platform.
Variable lib : sdk.t W.

(** [_load_lib(arch, name)]. *)
Definition _load_lib (arch name : string) : M W (list string) :=
  (if String.eqb (os_name env) "posix"
   then (_ <- CDLL env true ["libudev.so"] ;; ret tt)
   else ret tt) ;;
  CDLL env false [here env; "libs"; "efw"; arch; name].

(** The module body up to [_lib = _load_lib( *arch )]: what importing
    [zwo.efw] does before any class exists. *)
Definition import_module : M W (list string) :=
  a <- lift (arch env) ;;
  _load_lib (fst a) (snd a).

(** A script that uses the module, as [example/example-efw.py] does:
    [from zwo.efw import FilterWheel] runs the module body, and only then can the
    script's own statements run. *)
Definition script {A} (body : M W A) : M W A :=
  _ <- import_module ;;
  body.

(** [ZwoEfwDevice.__getattr__]: remember the name, fetch the prototype.
    The pair stands for [partial(self.__call__, prototype)] together with
    [self.name]. *)
Definition __getattr__ (name : string) : M W (string * prototype) :=
  proto <- lift (dict_get _functions_ name) ;;
  ret (name, proto).

(** [ZwoEfwDevice.__call__]; the f-string reaches [EFW_ERROR_CODE(result)]
    last, so a value outside the enum raises before any message exists. *)
Definition __call__ {C} (self : string * prototype) (fn : native W (cresult * C))
  : M W (cresult * C) :=
  let self_name := fst self in
  '(result, cells) <- invoke self_name fn ;;
  if truthy result && negb (set_mem self_name special_names)
  then (code <- lift (lookup_code result) ;;
        let msg := self_name ++ " error " ++ str_int (int_of result)
                   ++ " (" ++ code_name code ++ ")" in
        raise (ZwoFilterWheelError msg))
  else ret (result, cells).

(** [self._efw.<name>( *arguments )]. *)
Definition _efw {C} (name : string) (fn : native W (cresult * C))
  : M W (cresult * C) :=
  self <- __getattr__ name ;;
  __call__ self fn.

(** ** class FilterWheel *)

Definition EFWGetNum : M W value :=
  '(r, _) <- _efw "EFWGetNum" (int_fn0 (sdk.EFWGetNum lib)) ;;
  ret (value_of_cresult r).

Definition EFWGetProductIDs : M W value :=
  let pid_array := repeat 0 EFW_ID_MAX in
  '(pid_array_len, pid_array) <-
    _efw "EFWGetProductIDs" (int_fn (sdk.EFWGetProductIDs lib pid_array)) ;;
  ret (VTuple (slice_to (int_of pid_array_len) pid_array)).

Definition EFWGetID (index : Z) : M W value :=
  let ids := 0 in
  '(_, ids) <- _efw "EFWGetID" (int_fn (sdk.EFWGetID lib (to_c_int index) ids)) ;;
  ret (VInt ids).

Definition EFWOpen (ids : Z) : M W value :=
  _efw "EFWOpen" (int_fn0 (sdk.EFWOpen lib (to_c_int ids))) ;;
  ret (VBool true).

Definition EFWClose (ids : Z) : M W value :=
  _efw "EFWClose" (int_fn0 (sdk.EFWClose lib (to_c_int ids))) ;;
  ret (VBool true).

Definition EFWGetProperty (ids : Z) : M W value :=
  let info := {| efw_ID := 0; efw_Name := repeat x00 64; slotNum := 0 |} in
  '(_, info) <- _efw "EFWGetProperty" (int_fn (sdk.EFWGetProperty lib (to_c_int ids) info)) ;;
  ret (VEfwInfo info).

Definition EFWGetPosition (ids : Z) : M W value :=
  let position := 0 in
  '(_, position) <- _efw "EFWGetPosition" (int_fn (sdk.EFWGetPosition lib (to_c_int ids) position)) ;;
  ret (VInt position).

Definition EFWSetPosition (ids position : Z) : M W value :=
  _efw "EFWSetPosition" (int_fn0 (sdk.EFWSetPosition lib (to_c_int ids) (to_c_int position))) ;;
  ret (VBool true).

Definition EFWSetDirection (ids : Z) (direction : bool) : M W value :=
  _efw "EFWSetDirection" (int_fn0 (sdk.EFWSetDirection lib (to_c_int ids) direction)) ;;
  ret (VBool true).

Definition EFWGetDirection (ids : Z) : M W value :=
  let direction := false in
  '(_, direction) <-
    _efw "EFWGetDirection" (int_fn (sdk.EFWGetDirection lib (to_c_int ids) direction)) ;;
  ret (VBool direction).

Definition EFWCalibrate (ids : Z) : M W value :=
  _efw "EFWCalibrate" (int_fn0 (sdk.EFWCalibrate lib (to_c_int ids))) ;;
  ret (VBool true).

(** [bytes(None)] is a [TypeError]; [bytes(b)] is [b]. *)
Definition EFWGetSDKVersion : M W value :=
  '(r, _) <- _efw "EFWGetSDKVersion" (char_p_fn0 (sdk.EFWGetSDKVersion lib)) ;;
  match char_p_of r with
  | Some b => ret (VBytes b)
  | None => raise (TypeError "cannot convert 'NoneType' object to bytes")
  end.

Definition EFWGetHWErrorCode (ids : Z) : M W value :=
  let errcode := 0 in
  '(_, errcode) <-
    _efw "EFWGetHWErrorCode" (int_fn (sdk.EFWGetHWErrorCode lib (to_c_int ids) errcode)) ;;
  ret (VInt errcode).

Definition EFWGetFirmwareVersion (ids : Z) : M W value :=
  let major := x00 in
  let minor := x00 in
  let build := x00 in
  '(_, (major, minor, build)) <-
    _efw "EFWGetFirmwareVersion"
         (int_fn (sdk.EFWGetFirmwareVersion lib (to_c_int ids) (major, minor, build))) ;;
  ret (VTuple [ubyte_value major; ubyte_value minor; ubyte_value build]).

Definition EFWGetSerialNumber (ids : Z) : M W value :=
  let serial := {| efw_id := repeat x00 8 |} in
  '(_, serial) <-
    _efw "EFWGetSerialNumber" (int_fn (sdk.EFWGetSerialNumber lib (to_c_int ids) serial)) ;;
  ret (VEfwId serial).

Definition EFWSetID (ids : Z) (efw_id : EFW_ID) : M W value :=
  _efw "EFWSetID" (int_fn0 (sdk.EFWSetID lib (to_c_int ids) efw_id)) ;;
  ret (VBool true).

End Binding.
End efw.

(** * Vocabulary of the statements *)

(** [needle in hay] on Python strings. *)
Fixpoint contains (needle hay : string) : bool :=
  if String.prefix needle hay then true
  else match hay with
       | EmptyString => false
       | String _ rest => contains needle rest
       end.

(** What [__call__] raises on a truthy result outside the allow-list. *)
Definition eaf_failure (r : cresult) : exn :=
  match eaf.lookup_code r with
  | Return code => ZwoFocuserError (eaf.code_name code)
  | Raise e => e
  end.

Definition efw_failure (name : string) (r : cresult) : exn :=
  match efw.lookup_code r with
  | Return code =>
      ZwoFilterWheelError (name ++ " error " ++ str_int (int_of r)
                           ++ " (" ++ efw.code_name code ++ ")")
  | Raise e => e
  end.

(** The state after one native invocation. *)
Definition called {W} (name : string) (w' : W) (s : state W) : state W :=
  mkState w' (trace s ++ [NativeCall name]).

(** [name] is a key of a [_functions_] table. *)
Definition entry_point (table : list (string * prototype)) (name : string) : bool :=
  existsb (fun kv => String.eqb (fst kv) name) table.

(** [z] is the value of some member. *)
Definition eaf_known (z : Z) : bool :=
  existsb (fun c => eaf.code_value c =? z) eaf.members.

Definition efw_known (z : Z) : bool :=
  existsb (fun c => efw.code_value c =? z) efw.members.

(** Test doubles of the two SDKs, for concrete runs.  Every entry point
    answers [rc]; the cells passed by reference receive
    the scripted data; the world counts the invocations. *)
Definition eaf_double (rc : Z) (pids : list Z) (version : byte * byte * byte)
    (serial : list byte) (number : Z) : eaf.sdk.t nat :=
  {| eaf.sdk.EAFGetNum := fun w => (rc, S w);
     eaf.sdk.EAFGetProductIDs := fun _ w => ((rc, pids), S w);
     eaf.sdk.EAFCheck := fun _ _ w => (rc, S w);
     eaf.sdk.EAFGetID := fun _ _ w => ((rc, number), S w);
     eaf.sdk.EAFOpen := fun _ w => (rc, S w);
     eaf.sdk.EAFGetProperty := fun ids info w =>
       ((rc, {| eaf_ID := ids; eaf_Name := eaf_Name info; MaxStep := number |}), S w);
     eaf.sdk.EAFMove := fun _ _ w => (rc, S w);
     eaf.sdk.EAFStop := fun _ w => (rc, S w);
     eaf.sdk.EAFIsMoving := fun _ _ w => ((rc, (true, false)), S w);
     eaf.sdk.EAFGetPosition := fun _ _ w => ((rc, number), S w);
     eaf.sdk.EAFResetPostion := fun _ _ w => (rc, S w);
     eaf.sdk.EAFGetTemp := fun _ _ w => ((rc, number), S w);
     eaf.sdk.EAFSetBeep := fun _ _ w => (rc, S w);
     eaf.sdk.EAFGetBeep := fun _ _ w => ((rc, true), S w);
     eaf.sdk.EAFSetMaxStep := fun _ _ w => (rc, S w);
     eaf.sdk.EAFGetMaxStep := fun _ _ w => ((rc, number), S w);
     eaf.sdk.EAFStepRange := fun _ _ w => ((rc, number), S w);
     eaf.sdk.EAFSetReverse := fun _ _ w => (rc, S w);
     eaf.sdk.EAFGetReverse := fun _ _ w => ((rc, true), S w);
     eaf.sdk.EAFSetBacklash := fun _ _ w => (rc, S w);
     eaf.sdk.EAFGetBacklash := fun _ _ w => ((rc, number), S w);
     eaf.sdk.EAFClose := fun _ w => (rc, S w);
     eaf.sdk.EAFGetSDKVersion := fun w => (Some "1, 5, 0", S w);
     eaf.sdk.EAFGetFirmwareVersion := fun _ _ w => ((rc, version), S w);
     eaf.sdk.EAFGetSerialNumber := fun _ _ w => ((rc, {| eaf_id := serial |}), S w);
     eaf.sdk.EAFSetID := fun _ _ w => (rc, S w) |}.

Definition efw_double (rc : Z) (pids : list Z) (version : byte * byte * byte)
    (serial : list byte) (number : Z) : efw.sdk.t nat :=
  {| efw.sdk.EFWGetNum := fun w => (rc, S w);
     efw.sdk.EFWGetProductIDs := fun _ w => ((rc, pids), S w);
     efw.sdk.EFWGetID := fun _ _ w => ((rc, number), S w);
     efw.sdk.EFWOpen := fun _ w => (rc, S w);
     efw.sdk.EFWClose := fun _ w => (rc, S w);
     efw.sdk.EFWGetProperty := fun ids info w =>
       ((rc, {| efw_ID := ids; efw_Name := efw_Name info; slotNum := number |}), S w);
     efw.sdk.EFWGetPosition := fun _ _ w => ((rc, number), S w);
     efw.sdk.EFWSetPosition := fun _ _ w => (rc, S w);
     efw.sdk.EFWSetDirection := fun _ _ w => (rc, S w);
     efw.sdk.EFWGetDirection := fun _ _ w => ((rc, true), S w);
     efw.sdk.EFWCalibrate := fun _ w => (rc, S w);
     efw.sdk.EFWGetSDKVersion := fun w => (Some "1, 7, 0", S w);
     efw.sdk.EFWGetHWErrorCode := fun _ _ w => ((rc, number), S w);
     efw.sdk.EFWGetFirmwareVersion := fun _ _ w => ((rc, version), S w);
     efw.sdk.EFWGetSerialNumber := fun _ _ w => ((rc, {| efw_id := serial |}), S w);
     efw.sdk.EFWSetID := fun _ _ w => (rc, S w) |}.

(** The state a script starts in: nothing loaded, nothing called. *)
Definition start : state nat := mkState 0%nat [].

(** The first three product-ID slots filled, the other 125 left at zero. *)
Definition three_pids : list Z := [7937; 7938; 7939] ++ repeat 0 125.

Definition serial_five : list byte := [x00; x00; x00; x00; x00; x00; x00; x05].

(** What a method built on a status-returning entry point does with the
    library's reply: a truthy status raises [fail], a zero status lets the
    method build its value from the cells. *)
Definition outcome {W C} (name : string) (fail : cresult -> exn)
    (reply : (cresult * C) * W) (s : state W) (k : C -> value)
  : result value * state W :=
  let '((r, cells), w') := reply in
  if truthy r then (Raise (fail r), called name w' s)
  else (Return (k cells), called name w' s).

(** The (OS family, word width) pairs of the lookup table. *)
Definition supported_pairs : list (string * string) :=
  [("posix", "32bit"); ("posix", "64bit"); ("nt", "32bit"); ("nt", "64bit")].

Definition supported (env : platform) : bool :=
  existsb (fun p => String.eqb (fst p) (os_name env)
                    && String.eqb (snd p) (architecture0 env))
          supported_pairs.

Definition on (os width : string) (dir : string) (can_load : list string -> bool)
  : platform :=
  {| os_name := os; architecture0 := width; here := dir; loadable := can_load |}.

(** A library load, as opposed to a call into a loaded library. *)
Definition is_load (e : event) : bool :=
  match e with
  | LoadLibrary _ _ => true
  | NativeCall _ => false
  end.

(** Test doubles that honour the alias write: the world is the eight bytes
    last stored by the set-ID entry point, and the serial-number entry point
    writes them back into the record it is given.  Everything else answers 0
    and leaves the cells as they came. *)
Definition eaf_alias_double : eaf.sdk.t (list byte) :=
  {| eaf.sdk.EAFGetNum := fun w => (0, w);
     eaf.sdk.EAFGetProductIDs := fun pids w => ((0, pids), w);
     eaf.sdk.EAFCheck := fun _ _ w => (0, w);
     eaf.sdk.EAFGetID := fun _ c w => ((0, c), w);
     eaf.sdk.EAFOpen := fun _ w => (0, w);
     eaf.sdk.EAFGetProperty := fun _ c w => ((0, c), w);
     eaf.sdk.EAFMove := fun _ _ w => (0, w);
     eaf.sdk.EAFStop := fun _ w => (0, w);
     eaf.sdk.EAFIsMoving := fun _ c w => ((0, c), w);
     eaf.sdk.EAFGetPosition := fun _ c w => ((0, c), w);
     eaf.sdk.EAFResetPostion := fun _ _ w => (0, w);
     eaf.sdk.EAFGetTemp := fun _ c w => ((0, c), w);
     eaf.sdk.EAFSetBeep := fun _ _ w => (0, w);
     eaf.sdk.EAFGetBeep := fun _ c w => ((0, c), w);
     eaf.sdk.EAFSetMaxStep := fun _ _ w => (0, w);
     eaf.sdk.EAFGetMaxStep := fun _ c w => ((0, c), w);
     eaf.sdk.EAFStepRange := fun _ c w => ((0, c), w);
     eaf.sdk.EAFSetReverse := fun _ _ w => (0, w);
     eaf.sdk.EAFGetReverse := fun _ c w => ((0, c), w);
     eaf.sdk.EAFSetBacklash := fun _ _ w => (0, w);
     eaf.sdk.EAFGetBacklash := fun _ c w => ((0, c), w);
     eaf.sdk.EAFClose := fun _ w => (0, w);
     eaf.sdk.EAFGetSDKVersion := fun w => (None, w);
     eaf.sdk.EAFGetFirmwareVersion := fun _ c w => ((0, c), w);
     eaf.sdk.EAFGetSerialNumber := fun _ _ w => ((0, {| eaf_id := w |}), w);
     eaf.sdk.EAFSetID := fun _ alias _ => (0, eaf_id alias) |}.

Definition efw_alias_double : efw.sdk.t (list byte) :=
  {| efw.sdk.EFWGetNum := fun w => (0, w);
     efw.sdk.EFWGetProductIDs := fun pids w => ((0, pids), w);
     efw.sdk.EFWGetID := fun _ c w => ((0, c), w);
     efw.sdk.EFWOpen := fun _ w => (0, w);
     efw.sdk.EFWClose := fun _ w => (0, w);
     efw.sdk.EFWGetProperty := fun _ c w => ((0, c), w);
     efw.sdk.EFWGetPosition := fun _ c w => ((0, c), w);
     efw.sdk.EFWSetPosition := fun _ _ w => (0, w);
     efw.sdk.EFWSetDirection := fun _ _ w => (0, w);
     efw.sdk.EFWGetDirection := fun _ c w => ((0, c), w);
     efw.sdk.EFWCalibrate := fun _ w => (0, w);
     efw.sdk.EFWGetSDKVersion := fun w => (Some (String (ascii_of_nat 200) "1"), w);
     efw.sdk.EFWGetHWErrorCode := fun _ c w => ((0, c), w);
     efw.sdk.EFWGetFirmwareVersion := fun _ c w => ((0, c), w);
     efw.sdk.EFWGetSerialNumber := fun _ _ w => ((0, {| efw_id := w |}), w);
     efw.sdk.EFWSetID := fun _ alias _ => (0, efw_id alias) |}.

(** A script state whose world is a stored alias. *)
Definition alias_start : state (list byte) := mkState (repeat x00 8) [].

(** No character of [s] is a full stop. *)
Definition no_dot (s : string) : bool :=
  forallb (fun c => negb (Ascii.eqb c ".")) (list_ascii_of_string s).

(** * Properties of the binding *)

(** ** Strings *)

Lemma prefix_append (a b : string) : String.prefix a (a ++ b) = true.
Proof.
  induction a as [|c a IH]; simpl.
  - destruct b; reflexivity.
  - destruct (Ascii.ascii_dec c c) as [_|ne]; [exact IH | now destruct ne].
Qed.

Lemma contains_prefix (needle hay : string) :
  String.prefix needle hay = true -> contains needle hay = true.
Proof. intros H. destruct hay; cbn [contains]; now rewrite H. Qed.

Lemma contains_middle (pre needle post : string) :
  contains needle (pre ++ needle ++ post) = true.
Proof.
  induction pre as [|c pre IH].
  - cbn [append]. apply contains_prefix, prefix_append.
  - change (String c pre ++ needle ++ post)%string
      with (String c (pre ++ needle ++ post)).
    cbn [contains]. rewrite IH. now destruct (String.prefix needle _).
Qed.

Lemma contains_skip (needle pre hay : string) :
  contains needle hay = true -> contains needle (pre ++ hay) = true.
Proof.
  intros H. induction pre as [|c pre IH]; [exact H|].
  change (String c pre ++ hay)%string with (String c (pre ++ hay)).
  cbn [contains]. rewrite IH. now destruct (String.prefix needle _).
Qed.

Lemma contains_self (s : string) : contains s s = true.
Proof.
  assert (E : (s ++ "")%string = s).
  { induction s as [|c s IH]; simpl; [reflexivity | now rewrite IH]. }
  pose proof (contains_middle "" s "") as H. cbn [append] in H.
  now rewrite E in H.
Qed.

(** ** The error mapper, run *)

Lemma eaf_run {W C} (name : string) (fn : native W (cresult * C)) (s : state W) :
  eaf._eaf name fn s =
  match dict_get eaf._functions_ name with
  | Raise e => (Raise e, s)
  | Return _ =>
      let '((r, cells), w') := fn (world s) in
      if truthy r && negb (set_mem name eaf.special_names)
      then (Raise (eaf_failure r), called name w' s)
      else (Return (r, cells), called name w' s)
  end.
Proof.
  unfold eaf._eaf, eaf.__getattr__, eaf.__call__, eaf_failure, called,
    bind, lift, ret, raise, invoke.
  destruct (dict_get eaf._functions_ name); [|reflexivity]. cbn [fst].
  destruct (fn (world s)) as [[r cells] w'].
  destruct (truthy r && negb (set_mem name eaf.special_names)); [|reflexivity].
  destruct (eaf.lookup_code r); reflexivity.
Qed.

Lemma efw_run {W C} (name : string) (fn : native W (cresult * C)) (s : state W) :
  efw._efw name fn s =
  match dict_get efw._functions_ name with
  | Raise e => (Raise e, s)
  | Return _ =>
      let '((r, cells), w') := fn (world s) in
      if truthy r && negb (set_mem name efw.special_names)
      then (Raise (efw_failure name r), called name w' s)
      else (Return (r, cells), called name w' s)
  end.
Proof.
  unfold efw._efw, efw.__getattr__, efw.__call__, efw_failure, called,
    bind, lift, ret, raise, invoke.
  destruct (dict_get efw._functions_ name); [|reflexivity]. cbn [fst].
  destruct (fn (world s)) as [[r cells] w'].
  destruct (truthy r && negb (set_mem name efw.special_names)); [|reflexivity].
  destruct (efw.lookup_code r); reflexivity.
Qed.

Lemma dict_get_entry_point {V} (d : list (string * V)) (k : string) :
  existsb (fun kv => String.eqb (fst kv) k) d = true ->
  exists v, dict_get d k = Return v.
Proof.
  induction d as [|[k' v] d IH]; simpl; [discriminate|].
  destruct (String.eqb k' k); simpl; eauto.
Qed.

(** Enumeration lookups. *)
Lemma eaf_lookup_member (c : eaf.EAF_ERROR_CODE) :
  eaf.lookup_code (RInt (eaf.code_value c)) = Return c.
Proof. destruct c; reflexivity. Qed.

Lemma efw_lookup_member (c : efw.EFW_ERROR_CODE) :
  efw.lookup_code (RInt (efw.code_value c)) = Return c.
Proof. destruct c; reflexivity. Qed.

Lemma find_none_existsb {A} (p : A -> bool) (l : list A) :
  existsb p l = false -> find p l = None.
Proof.
  induction l as [|a l IH]; simpl; [reflexivity|].
  destruct (p a); simpl; [discriminate | exact IH].
Qed.

Lemma eaf_lookup_unknown (z : Z) :
  eaf_known z = false ->
  eaf.lookup_code (RInt z) = Raise (ValueError (RInt z) "EAF_ERROR_CODE").
Proof.
  intros H. unfold eaf.lookup_code.
  now rewrite (find_none_existsb _ _ H).
Qed.

Lemma efw_lookup_unknown (z : Z) :
  efw_known z = false ->
  efw.lookup_code (RInt z) = Raise (ValueError (RInt z) "EFW_ERROR_CODE").
Proof.
  intros H. unfold efw.lookup_code.
  now rewrite (find_none_existsb _ _ H).
Qed.

(** ** Allow-listed entry points *)

Lemma special_is_entry_point_eaf (name : string) :
  set_mem name eaf.special_names = true ->
  exists proto, dict_get eaf._functions_ name = Return proto.
Proof.
  intros H. apply dict_get_entry_point.
  unfold set_mem, eaf.special_names in H. cbn [existsb] in H.
  repeat match type of H with
         | (?a =? ?b)%string || _ = true =>
             destruct (String.eqb_spec a b); [subst; reflexivity | cbn [orb] in H]
         end.
  discriminate.
Qed.

Lemma special_is_entry_point_efw (name : string) :
  set_mem name efw.special_names = true ->
  exists proto, dict_get efw._functions_ name = Return proto.
Proof.
  intros H. apply dict_get_entry_point.
  unfold set_mem, efw.special_names in H. cbn [existsb] in H.
  repeat match type of H with
         | (?a =? ?b)%string || _ = true =>
             destruct (String.eqb_spec a b); [subst; reflexivity | cbn [orb] in H]
         end.
  discriminate.
Qed.

(** C5. For an entry point of a family's allow-list the error mapper hands
    the native result back exactly as the library returned it, whatever its
    value: nothing is raised and the result is not read as an error code.
    In particular [EAFGetNum], [EAFCheck] and [EFWGetNum] return the raw
    integer to their caller. *)
Theorem allow_listed_result_returned_raw :
  (forall W C (name : string) (fn : native W (cresult * C)) (s : state W)
          (r : cresult) (cells : C) (w' : W),
      set_mem name eaf.special_names = true ->
      fn (world s) = ((r, cells), w') ->
      eaf._eaf name fn s = (Return (r, cells), called name w' s))
  /\ (forall W C (name : string) (fn : native W (cresult * C)) (s : state W)
             (r : cresult) (cells : C) (w' : W),
      set_mem name efw.special_names = true ->
      fn (world s) = ((r, cells), w') ->
      efw._efw name fn s = (Return (r, cells), called name w' s))
  /\ (forall W (lib : eaf.sdk.t W) (s : state W) (n : Z) (w' : W),
      eaf.sdk.EAFGetNum lib (world s) = (n, w') ->
      eaf.EAFGetNum lib s = (Return (VInt n), called "EAFGetNum" w' s))
  /\ (forall W (lib : eaf.sdk.t W) (vid pid : Z) (s : state W) (n : Z) (w' : W),
      eaf.sdk.EAFCheck lib (to_c_int vid) (to_c_int pid) (world s) = (n, w') ->
      eaf.EAFCheck lib vid pid s = (Return (VInt n), called "EAFCheck" w' s))
  /\ (forall W (lib : efw.sdk.t W) (s : state W) (n : Z) (w' : W),
      efw.sdk.EFWGetNum lib (world s) = (n, w') ->
      efw.EFWGetNum lib s = (Return (VInt n), called "EFWGetNum" w' s)).
Proof.
  split; [|split; [|split; [|split]]].
  - intros W C name fn s r cells w' Hs Hfn.
    rewrite eaf_run. destruct (special_is_entry_point_eaf name Hs) as [p ->].
    rewrite Hfn, Hs. cbn [negb]. now rewrite andb_false_r.
  - intros W C name fn s r cells w' Hs Hfn.
    rewrite efw_run. destruct (special_is_entry_point_efw name Hs) as [p ->].
    rewrite Hfn, Hs. cbn [negb]. now rewrite andb_false_r.
  - intros W lib s n w' H. unfold eaf.EAFGetNum, bind.
    rewrite eaf_run. unfold int_fn0. now rewrite H, andb_false_r.
  - intros W lib vid pid s n w' H. unfold eaf.EAFCheck, bind.
    rewrite eaf_run. unfold int_fn0. now rewrite H, andb_false_r.
  - intros W lib s n w' H. unfold efw.EFWGetNum, bind.
    rewrite efw_run. unfold int_fn0. now rewrite H, andb_false_r.
Qed.

Lemma allow_listed_result_returned_raw_witness :
  eaf._eaf "EAFGetProductIDs"
      (fun w : nat => ((RInt (-2147483648), three_pids), S w)) start
  = (Return (RInt (-2147483648), three_pids), called "EAFGetProductIDs" 1%nat start)
  /\ efw._efw "EFWGetSDKVersion"
      (fun w : nat => ((RCharP (Some "1, 7, 0"), tt), S w)) start
  = (Return (RCharP (Some "1, 7, 0"), tt), called "EFWGetSDKVersion" 1%nat start)
  /\ eaf.EAFGetNum (eaf_double (-1) [] (x00, x00, x00) [] 0) start
  = (Return (VInt (-1)), called "EAFGetNum" 1%nat start)
  /\ eaf.EAFCheck (eaf_double 9 [] (x00, x00, x00) [] 0) 1003 7937 start
  = (Return (VInt 9), called "EAFCheck" 1%nat start)
  /\ efw.EFWGetNum (efw_double 2147483647 [] (x00, x00, x00) [] 0) start
  = (Return (VInt 2147483647), called "EFWGetNum" 1%nat start).
Proof.
  destruct allow_listed_result_returned_raw as (H1 & H2 & H3 & H4 & H5).
  split; [|split; [|split; [|split]]].
  - apply H1; reflexivity.
  - apply H2; reflexivity.
  - apply H3; reflexivity.
  - apply H4; reflexivity.
  - apply H5; reflexivity.
Defined.

(** ** Status-returning entry points *)

(** Outside the allow-list the mapper lets exactly the result 0 through. *)
Lemma eaf_checked_run {W C} (name : string) (fn : native W (cresult * C))
    (s : state W) (z : Z) (cells : C) (w' : W) :
  entry_point eaf._functions_ name = true ->
  set_mem name eaf.special_names = false ->
  fn (world s) = ((RInt z, cells), w') ->
  eaf._eaf name fn s =
    if z =? 0 then (Return (RInt z, cells), called name w' s)
    else (Raise (eaf_failure (RInt z)), called name w' s).
Proof.
  intros He Hs Hfn. rewrite eaf_run.
  destruct (dict_get_entry_point _ _ He) as [p ->].
  rewrite Hfn, Hs. cbn [truthy negb]. rewrite andb_true_r.
  now destruct (z =? 0).
Qed.

Lemma efw_checked_run {W C} (name : string) (fn : native W (cresult * C))
    (s : state W) (z : Z) (cells : C) (w' : W) :
  entry_point efw._functions_ name = true ->
  set_mem name efw.special_names = false ->
  fn (world s) = ((RInt z, cells), w') ->
  efw._efw name fn s =
    if z =? 0 then (Return (RInt z, cells), called name w' s)
    else (Raise (efw_failure name (RInt z)), called name w' s).
Proof.
  intros He Hs Hfn. rewrite efw_run.
  destruct (dict_get_entry_point _ _ He) as [p ->].
  rewrite Hfn, Hs. cbn [truthy negb]. rewrite andb_true_r.
  now destruct (z =? 0).
Qed.

Lemma eaf_failure_member (c : eaf.EAF_ERROR_CODE) :
  eaf_failure (RInt (eaf.code_value c)) = ZwoFocuserError (eaf.code_name c).
Proof. unfold eaf_failure. now rewrite eaf_lookup_member. Qed.

Lemma efw_failure_member (name : string) (c : efw.EFW_ERROR_CODE) :
  efw_failure name (RInt (efw.code_value c)) =
  ZwoFilterWheelError (name ++ " error " ++ str_int (efw.code_value c)
                       ++ " (" ++ efw.code_name c ++ ")").
Proof. unfold efw_failure. now rewrite efw_lookup_member. Qed.

Lemma eaf_failure_unknown (z : Z) :
  eaf_known z = false ->
  eaf_failure (RInt z) = ValueError (RInt z) "EAF_ERROR_CODE".
Proof. intros H. unfold eaf_failure. now rewrite eaf_lookup_unknown. Qed.

Lemma efw_failure_unknown (name : string) (z : Z) :
  efw_known z = false ->
  efw_failure name (RInt z) = ValueError (RInt z) "EFW_ERROR_CODE".
Proof. intros H. unfold efw_failure. now rewrite efw_lookup_unknown. Qed.

Lemma eaf_member_nonzero (c : eaf.EAF_ERROR_CODE) :
  c <> eaf.EAF_SUCCESS -> (eaf.code_value c =? 0) = false.
Proof. destruct c; intros H; try reflexivity. now destruct H. Qed.

Lemma efw_member_nonzero (c : efw.EFW_ERROR_CODE) :
  c <> efw.EFW_SUCCESS -> (efw.code_value c =? 0) = false.
Proof. destruct c; intros H; try reflexivity. now destruct H. Qed.

(** C2. Outside the allow-list, a nonzero native result that is the value of
    no member of the family's enumeration makes the call fail with the
    enumeration's own [ValueError], which carries the offending integer: the
    call does not return, and what is raised is not the family's error with
    a named kind. *)
Theorem unknown_code_raises_distinct_failure :
  (forall W C (name : string) (fn : native W (cresult * C)) (s : state W)
          (z : Z) (cells : C) (w' : W),
      entry_point eaf._functions_ name = true ->
      set_mem name eaf.special_names = false ->
      fn (world s) = ((RInt z, cells), w') ->
      z <> 0 -> eaf_known z = false ->
      eaf._eaf name fn s
        = (Raise (ValueError (RInt z) "EAF_ERROR_CODE"), called name w' s)
      /\ (forall out, fst (eaf._eaf name fn s) <> Return out)
      /\ (forall msg, fst (eaf._eaf name fn s) <> Raise (ZwoFocuserError msg)))
  /\ (forall W C (name : string) (fn : native W (cresult * C)) (s : state W)
             (z : Z) (cells : C) (w' : W),
      entry_point efw._functions_ name = true ->
      set_mem name efw.special_names = false ->
      fn (world s) = ((RInt z, cells), w') ->
      z <> 0 -> efw_known z = false ->
      efw._efw name fn s
        = (Raise (ValueError (RInt z) "EFW_ERROR_CODE"), called name w' s)
      /\ (forall out, fst (efw._efw name fn s) <> Return out)
      /\ (forall msg, fst (efw._efw name fn s) <> Raise (ZwoFilterWheelError msg))).
Proof.
  split.
  - intros W C name fn s z cells w' He Hs Hfn Hz Hk.
    assert (E : eaf._eaf name fn s
                = (Raise (ValueError (RInt z) "EAF_ERROR_CODE"), called name w' s)).
    { rewrite (eaf_checked_run name fn s z cells w' He Hs Hfn).
      destruct (Z.eqb_spec z 0); [contradiction|].
      now rewrite eaf_failure_unknown. }
    rewrite E. cbn [fst]. repeat split; [intros out | intros msg]; discriminate.
  - intros W C name fn s z cells w' He Hs Hfn Hz Hk.
    assert (E : efw._efw name fn s
                = (Raise (ValueError (RInt z) "EFW_ERROR_CODE"), called name w' s)).
    { rewrite (efw_checked_run name fn s z cells w' He Hs Hfn).
      destruct (Z.eqb_spec z 0); [contradiction|].
      now rewrite efw_failure_unknown. }
    rewrite E. cbn [fst]. repeat split; [intros out | intros msg]; discriminate.
Qed.

Lemma unknown_code_raises_distinct_failure_witness :
  eaf._eaf "EAFMove" (fun w : nat => ((RInt 42, tt), S w)) start
    = (Raise (ValueError (RInt 42) "EAF_ERROR_CODE"), called "EAFMove" 1%nat start)
  /\ efw._efw "EFWGetPosition" (fun w : nat => ((RInt (-2), 0), S w)) start
    = (Raise (ValueError (RInt (-2)) "EFW_ERROR_CODE"),
       called "EFWGetPosition" 1%nat start).
Proof.
  split.
  - apply (proj1 unknown_code_raises_distinct_failure
             nat unit "EAFMove" _ start 42 tt 1%nat);
      [reflexivity | reflexivity | reflexivity | lia | reflexivity].
  - apply (proj2 unknown_code_raises_distinct_failure
             nat Z "EFWGetPosition" _ start (-2) 0 1%nat);
      [reflexivity | reflexivity | reflexivity | lia | reflexivity].
Defined.

(** ** The client methods, run *)

Ltac destruct_native_reply :=
  match goal with
  | |- context [?f (world ?s)] =>
      let x := fresh "reply" in
      let w' := fresh "w'" in
      destruct (f (world s)) as [x w'];
      match type of x with
      | (_ * _)%type => let z := fresh "z" in let cells := fresh "cells" in
                        destruct x as [z cells]
      | _ => idtac
      end
  end.

Ltac run_method m :=
  intros; unfold m, bind, ret, raise, outcome, py_not;
  first [rewrite eaf_run | rewrite efw_run];
  unfold int_fn, int_fn0, char_p_fn0;
  destruct_native_reply;
  cbn [dict_get eaf._functions_ efw._functions_ String.eqb Ascii.eqb Bool.eqb
       set_mem existsb eaf.special_names efw.special_names orb negb fst snd];
  cbn [truthy]; rewrite ?andb_true_r;
  repeat match goal with
         | |- context [negb (?z =? 0)] =>
             let E := fresh "E" in
             destruct (z =? 0) eqn:E; cbn [negb truthy]; rewrite ?E; cbn [negb]
         | cells : (_ * _)%type |- _ => destruct cells
         end;
  try reflexivity.

(** C3. Outside the allow-list, a native result of 0 makes the call succeed
    and the contents the library wrote into the cells passed by reference
    come back to the method; a nonzero result that is the value of a member
    of the family's enumeration raises the family's error, whose message
    names that member.  Every method with out-parameters returns to its
    caller what the library wrote into them whenever the status is 0. *)
Theorem status_zero_succeeds_known_code_raises :
  (forall W C (name : string) (fn : native W (cresult * C)) (s : state W)
          (z : Z) (cells : C) (w' : W),
      entry_point eaf._functions_ name = true ->
      set_mem name eaf.special_names = false ->
      fn (world s) = ((RInt z, cells), w') ->
      (z = 0 -> eaf._eaf name fn s = (Return (RInt 0, cells), called name w' s))
      /\ (forall code, code <> eaf.EAF_SUCCESS -> z = eaf.code_value code ->
          eaf._eaf name fn s
            = (Raise (ZwoFocuserError (eaf.code_name code)), called name w' s)))
  /\ (forall W C (name : string) (fn : native W (cresult * C)) (s : state W)
             (z : Z) (cells : C) (w' : W),
      entry_point efw._functions_ name = true ->
      set_mem name efw.special_names = false ->
      fn (world s) = ((RInt z, cells), w') ->
      (z = 0 -> efw._efw name fn s = (Return (RInt 0, cells), called name w' s))
      /\ (forall code, code <> efw.EFW_SUCCESS -> z = efw.code_value code ->
          efw._efw name fn s
            = (Raise (ZwoFilterWheelError
                        (name ++ " error " ++ str_int z
                         ++ " (" ++ efw.code_name code ++ ")")),
               called name w' s)))
  /\ (forall W (lib : eaf.sdk.t W) (s : state W) (ids : Z),
      eaf.EAFGetID lib ids s
        = outcome "EAFGetID" eaf_failure
            (int_fn (eaf.sdk.EAFGetID lib (to_c_int ids) 0) (world s)) s VInt
      /\ eaf.EAFGetProperty lib ids s
        = outcome "EAFGetProperty" eaf_failure
            (int_fn (eaf.sdk.EAFGetProperty lib (to_c_int ids)
                       {| eaf_ID := 0; eaf_Name := repeat x00 64; MaxStep := 0 |})
                    (world s)) s VEafInfo
      /\ eaf.EAFIsMoving lib ids s
        = outcome "EAFIsMoving" eaf_failure
            (int_fn (eaf.sdk.EAFIsMoving lib (to_c_int ids) (false, false)) (world s)) s
            (fun '(moving, hand_control) =>
               VDict [("moving", moving); ("hand_control", hand_control)])
      /\ eaf.EAFGetPosition lib ids s
        = outcome "EAFGetPosition" eaf_failure
            (int_fn (eaf.sdk.EAFGetPosition lib (to_c_int ids) 0) (world s)) s VInt
      /\ eaf.EAFGetTemp lib ids s
        = outcome "EAFGetTemp" eaf_failure
            (int_fn (eaf.sdk.EAFGetTemp lib (to_c_int ids) 0) (world s)) s VFloat
      /\ eaf.EAFGetBeep lib ids s
        = outcome "EAFGetBeep" eaf_failure
            (int_fn (eaf.sdk.EAFGetBeep lib (to_c_int ids) false) (world s)) s VBool
      /\ eaf.EAFGetMaxStep lib ids s
        = outcome "EAFGetMaxStep" eaf_failure
            (int_fn (eaf.sdk.EAFGetMaxStep lib (to_c_int ids) 0) (world s)) s VInt
      /\ eaf.EAFStepRange lib ids s
        = outcome "EAFStepRange" eaf_failure
            (int_fn (eaf.sdk.EAFStepRange lib (to_c_int ids) 0) (world s)) s VInt
      /\ eaf.EAFGetReverse lib ids s
        = outcome "EAFGetReverse" eaf_failure
            (int_fn (eaf.sdk.EAFGetReverse lib (to_c_int ids) false) (world s)) s VBool
      /\ eaf.EAFGetBacklash lib ids s
        = outcome "EAFGetBacklash" eaf_failure
            (int_fn (eaf.sdk.EAFGetBacklash lib (to_c_int ids) 0) (world s)) s VInt
      /\ eaf.EAFGetFirmwareVersion lib ids s
        = outcome "EAFGetFirmwareVersion" eaf_failure
            (int_fn (eaf.sdk.EAFGetFirmwareVersion lib (to_c_int ids) (x00, x00, x00))
                    (world s)) s
            (fun '(major, minor, build) =>
               VStr (str_int (ubyte_value major) ++ "." ++ str_int (ubyte_value minor)
                     ++ "." ++ str_int (ubyte_value build)))
      /\ eaf.EAFGetSerialNumber lib ids s
        = outcome "EAFGetSerialNumber" eaf_failure
            (int_fn (eaf.sdk.EAFGetSerialNumber lib (to_c_int ids)
                       {| eaf_id := repeat x00 8 |}) (world s)) s
            (fun serial => VInt (int_from_bytes_big (eaf_id serial))))
  /\ (forall W (lib : efw.sdk.t W) (s : state W) (ids : Z),
      efw.EFWGetID lib ids s
        = outcome "EFWGetID" (efw_failure "EFWGetID")
            (int_fn (efw.sdk.EFWGetID lib (to_c_int ids) 0) (world s)) s VInt
      /\ efw.EFWGetProperty lib ids s
        = outcome "EFWGetProperty" (efw_failure "EFWGetProperty")
            (int_fn (efw.sdk.EFWGetProperty lib (to_c_int ids)
                       {| efw_ID := 0; efw_Name := repeat x00 64; slotNum := 0 |})
                    (world s)) s VEfwInfo
      /\ efw.EFWGetPosition lib ids s
        = outcome "EFWGetPosition" (efw_failure "EFWGetPosition")
            (int_fn (efw.sdk.EFWGetPosition lib (to_c_int ids) 0) (world s)) s VInt
      /\ efw.EFWGetDirection lib ids s
        = outcome "EFWGetDirection" (efw_failure "EFWGetDirection")
            (int_fn (efw.sdk.EFWGetDirection lib (to_c_int ids) false) (world s)) s VBool
      /\ efw.EFWGetHWErrorCode lib ids s
        = outcome "EFWGetHWErrorCode" (efw_failure "EFWGetHWErrorCode")
            (int_fn (efw.sdk.EFWGetHWErrorCode lib (to_c_int ids) 0) (world s)) s VInt
      /\ efw.EFWGetFirmwareVersion lib ids s
        = outcome "EFWGetFirmwareVersion" (efw_failure "EFWGetFirmwareVersion")
            (int_fn (efw.sdk.EFWGetFirmwareVersion lib (to_c_int ids) (x00, x00, x00))
                    (world s)) s
            (fun '(major, minor, build) =>
               VTuple [ubyte_value major; ubyte_value minor; ubyte_value build])
      /\ efw.EFWGetSerialNumber lib ids s
        = outcome "EFWGetSerialNumber" (efw_failure "EFWGetSerialNumber")
            (int_fn (efw.sdk.EFWGetSerialNumber lib (to_c_int ids)
                       {| efw_id := repeat x00 8 |}) (world s)) s VEfwId).
Proof.
  split; [|split; [|split]].
  - intros W C name fn s z cells w' He Hs Hfn.
    rewrite (eaf_checked_run name fn s z cells w' He Hs Hfn). split.
    + now intros ->.
    + intros code Hc ->. now rewrite (eaf_member_nonzero code Hc), eaf_failure_member.
  - intros W C name fn s z cells w' He Hs Hfn.
    rewrite (efw_checked_run name fn s z cells w' He Hs Hfn). split.
    + now intros ->.
    + intros code Hc ->. now rewrite (efw_member_nonzero code Hc), efw_failure_member.
  - intros W lib s ids. repeat apply conj.
    + run_method (@eaf.EAFGetID).
    + run_method (@eaf.EAFGetProperty).
    + run_method (@eaf.EAFIsMoving).
    + run_method (@eaf.EAFGetPosition).
    + run_method (@eaf.EAFGetTemp).
    + run_method (@eaf.EAFGetBeep).
    + run_method (@eaf.EAFGetMaxStep).
    + run_method (@eaf.EAFStepRange).
    + run_method (@eaf.EAFGetReverse).
    + run_method (@eaf.EAFGetBacklash).
    + run_method (@eaf.EAFGetFirmwareVersion).
    + run_method (@eaf.EAFGetSerialNumber).
  - intros W lib s ids. repeat apply conj.
    + run_method (@efw.EFWGetID).
    + run_method (@efw.EFWGetProperty).
    + run_method (@efw.EFWGetPosition).
    + run_method (@efw.EFWGetDirection).
    + run_method (@efw.EFWGetHWErrorCode).
    + run_method (@efw.EFWGetFirmwareVersion).
    + run_method (@efw.EFWGetSerialNumber).
Qed.

Lemma status_zero_succeeds_known_code_raises_witness :
  eaf._eaf "EAFGetPosition" (fun w : nat => ((RInt 0, 31000), S w)) start
    = (Return (RInt 0, 31000), called "EAFGetPosition" 1%nat start)
  /\ eaf._eaf "EAFMove" (fun w : nat => ((RInt 5, tt), S w)) start
    = (Raise (ZwoFocuserError "EAF_ERROR_MOVING"), called "EAFMove" 1%nat start)
  /\ efw._efw "EFWGetPosition" (fun w : nat => ((RInt 0, 3), S w)) start
    = (Return (RInt 0, 3), called "EFWGetPosition" 1%nat start)
  /\ efw._efw "EFWSetPosition" (fun w : nat => ((RInt 3, tt), S w)) start
    = (Raise (ZwoFilterWheelError "EFWSetPosition error 3 (EFW_ERROR_INVALID_VALUE)"),
       called "EFWSetPosition" 1%nat start).
Proof.
  destruct status_zero_succeeds_known_code_raises as (Ha & Hw & _).
  split; [|split; [|split]].
  - apply (Ha nat Z "EAFGetPosition" _ start 0 31000 1%nat); reflexivity.
  - apply (proj2 (Ha nat unit "EAFMove" _ start 5 tt 1%nat
                    eq_refl eq_refl eq_refl) eaf.EAF_ERROR_MOVING);
      [discriminate | reflexivity].
  - apply (Hw nat Z "EFWGetPosition" _ start 0 3 1%nat); reflexivity.
  - apply (proj2 (Hw nat unit "EFWSetPosition" _ start 3 tt 1%nat
                    eq_refl eq_refl eq_refl) efw.EFW_ERROR_INVALID_VALUE);
      [discriminate | reflexivity].
Defined.

(** ** The library resolver *)

Lemma eaf_arch_unsupported (env : platform) :
  supported env = false -> exists key, eaf.arch env = Raise (KeyError key).
Proof.
  unfold supported, supported_pairs, eaf.arch, eaf.arch_table.
  intros H.
  destruct (String.eqb "posix" (os_name env)) eqn:E1;
    destruct (String.eqb "nt" (os_name env)) eqn:E2;
    destruct (String.eqb "32bit" (architecture0 env)) eqn:E3;
    destruct (String.eqb "64bit" (architecture0 env)) eqn:E4;
    repeat (cbn [existsb dict_get fst snd andb orb] in H |- *;
            rewrite ?E1, ?E2, ?E3, ?E4 in H |- *);
    try discriminate H; eexists; reflexivity.
Qed.

Lemma efw_arch_unsupported (env : platform) :
  supported env = false -> exists key, efw.arch env = Raise (KeyError key).
Proof.
  unfold supported, supported_pairs, efw.arch, efw.arch_table.
  intros H.
  destruct (String.eqb "posix" (os_name env)) eqn:E1;
    destruct (String.eqb "nt" (os_name env)) eqn:E2;
    destruct (String.eqb "32bit" (architecture0 env)) eqn:E3;
    destruct (String.eqb "64bit" (architecture0 env)) eqn:E4;
    repeat (cbn [existsb dict_get fst snd andb orb] in H |- *;
            rewrite ?E1, ?E2, ?E3, ?E4 in H |- *);
    try discriminate H; eexists; reflexivity.
Qed.

(** C9. On each of the four pairs of the table the resolver selects the
    documented subdirectory and file name, for the focuser and for the filter
    wheel.  On any other pair the table lookup raises [KeyError] while the
    module is being imported: whatever the script would have done next is
    never run, no library is loaded and no entry point is invoked (the state
    and its trace are unchanged). *)
Theorem resolver_selects_documented_library :
  (forall dir can_load,
      eaf.arch (on "posix" "32bit" dir can_load) = Return ("linux32", "libEAFFocuser.so")
      /\ eaf.arch (on "posix" "64bit" dir can_load) = Return ("linux64", "libEAFFocuser.so")
      /\ eaf.arch (on "nt" "32bit" dir can_load) = Return ("win32", "EAF_focuser.dll")
      /\ eaf.arch (on "nt" "64bit" dir can_load) = Return ("win64", "EAF_focuser.dll")
      /\ efw.arch (on "posix" "32bit" dir can_load) = Return ("linux32", "libEFWFilter.so")
      /\ efw.arch (on "posix" "64bit" dir can_load) = Return ("linux64", "libEFWFilter.so")
      /\ efw.arch (on "nt" "32bit" dir can_load) = Return ("win32", "EFW_filter.dll")
      /\ efw.arch (on "nt" "64bit" dir can_load) = Return ("win64", "EFW_filter.dll"))
  /\ (forall env : platform,
      supported env = false ->
      (exists key,
          eaf.arch env = Raise (KeyError key)
          /\ forall W A (body : M W A) (s : state W),
              eaf.script env body s = (Raise (KeyError key), s))
      /\ (exists key,
          efw.arch env = Raise (KeyError key)
          /\ forall W A (body : M W A) (s : state W),
              efw.script env body s = (Raise (KeyError key), s))).
Proof.
  split.
  - intros dir can_load. repeat split.
  - intros env H. split.
    + destruct (eaf_arch_unsupported env H) as [key E]. exists key. split; [exact E|].
      intros W A body s.
      unfold eaf.script, eaf.import_module, bind, lift. now rewrite E.
    + destruct (efw_arch_unsupported env H) as [key E]. exists key. split; [exact E|].
      intros W A body s.
      unfold efw.script, efw.import_module, bind, lift. now rewrite E.
Qed.

Lemma resolver_selects_documented_library_witness :
  (exists key,
      eaf.arch (on "java" "64bit" "/opt/zwo" (fun _ => true)) = Raise (KeyError key)
      /\ forall W A (body : M W A) (s : state W),
          eaf.script (on "java" "64bit" "/opt/zwo" (fun _ => true)) body s
          = (Raise (KeyError key), s))
  /\ (exists key,
      efw.arch (on "java" "64bit" "/opt/zwo" (fun _ => true)) = Raise (KeyError key)
      /\ forall W A (body : M W A) (s : state W),
          efw.script (on "java" "64bit" "/opt/zwo" (fun _ => true)) body s
          = (Raise (KeyError key), s)).
Proof.
  apply (proj2 resolver_selects_documented_library
           (on "java" "64bit" "/opt/zwo" (fun _ => true))).
  reflexivity.
Defined.

(** On a supported platform whose loader finds the files, importing the
    focuser module loads [libudev.so] globally first (POSIX only) and then
    the selected library, and the script's body runs after that. *)
Lemma eaf_script_on_linux64 {A} (dir : string) (body : M nat A) :
  eaf.script (on "posix" "64bit" dir (fun _ => true)) body start =
  body (mkState 0%nat
          [LoadLibrary true ["libudev.so"];
           LoadLibrary false [dir; "libs"; "linux64"; "libEAFFocuser.so"]]).
Proof. reflexivity. Qed.

Lemma efw_script_on_win32 {A} (dir : string) (body : M nat A) :
  efw.script (on "nt" "32bit" dir (fun _ => true)) body start =
  body (mkState 0%nat
          [LoadLibrary false [dir; "libs"; "efw"; "win32"; "EFW_filter.dll"]]).
Proof. reflexivity. Qed.

(** ** Mutating operations *)

(** C1, as stated, fails: [EFWSetPosition] goes through the same error
    mapper as every other entry point, so a native status of 1 raises
    instead of returning [True]. *)
Lemma filter_wheel_set_position_status_1 :
  fst (efw.EFWSetPosition (efw_double 1 [] (x00, x00, x00) [] 0) 0 2 start)
    = Raise (ZwoFilterWheelError "EFWSetPosition error 1 (EFW_ERROR_INVALID_INDEX)")
  /\ fst (efw.EFWSetPosition (efw_double 1 [] (x00, x00, x00) [] 0) 0 2 start)
    <> Return (VBool true).
Proof. split; [reflexivity | discriminate]. Qed.

(** C1, amended. The six mutating methods of the filter wheel do not look
    at what the error mapper returns and answer [True] whenever it returns,
    which it does exactly when the native status is 0; on every nonzero
    status the mapper raises before the method can answer: the filter-wheel
    error naming the operation, the status and the member when the status is
    in the enumeration, the enumeration's [ValueError] otherwise.  [EAFMove]
    raises on a nonzero status in the same way and answers [True] on 0. *)
Theorem filter_wheel_mutators_true_only_on_zero :
  (forall W (lib : efw.sdk.t W) (s : state W) (ids position : Z)
          (direction : bool) (efw_id : EFW_ID),
      efw.EFWOpen lib ids s
        = outcome "EFWOpen" (efw_failure "EFWOpen")
            (int_fn0 (efw.sdk.EFWOpen lib (to_c_int ids)) (world s)) s
            (fun _ => VBool true)
      /\ efw.EFWClose lib ids s
        = outcome "EFWClose" (efw_failure "EFWClose")
            (int_fn0 (efw.sdk.EFWClose lib (to_c_int ids)) (world s)) s
            (fun _ => VBool true)
      /\ efw.EFWSetPosition lib ids position s
        = outcome "EFWSetPosition" (efw_failure "EFWSetPosition")
            (int_fn0 (efw.sdk.EFWSetPosition lib (to_c_int ids) (to_c_int position))
                     (world s)) s
            (fun _ => VBool true)
      /\ efw.EFWSetDirection lib ids direction s
        = outcome "EFWSetDirection" (efw_failure "EFWSetDirection")
            (int_fn0 (efw.sdk.EFWSetDirection lib (to_c_int ids) direction) (world s)) s
            (fun _ => VBool true)
      /\ efw.EFWCalibrate lib ids s
        = outcome "EFWCalibrate" (efw_failure "EFWCalibrate")
            (int_fn0 (efw.sdk.EFWCalibrate lib (to_c_int ids)) (world s)) s
            (fun _ => VBool true)
      /\ efw.EFWSetID lib ids efw_id s
        = outcome "EFWSetID" (efw_failure "EFWSetID")
            (int_fn0 (efw.sdk.EFWSetID lib (to_c_int ids) efw_id) (world s)) s
            (fun _ => VBool true))
  /\ (forall W (lib : eaf.sdk.t W) (s : state W) (ids position : Z),
      eaf.EAFMove lib ids position s
        = outcome "EAFMove" eaf_failure
            (int_fn0 (eaf.sdk.EAFMove lib (to_c_int ids) (to_c_int position))
                     (world s)) s
            (fun _ => VBool true))
  /\ (forall W C (name : string) (fail : cresult -> exn) (z : Z) (cells : C)
             (w' : W) (s : state W) (k : C -> value),
      outcome name fail ((RInt z, cells), w') s k
        = if z =? 0 then (Return (k cells), called name w' s)
          else (Raise (fail (RInt z)), called name w' s))
  /\ (forall (name : string) (code : efw.EFW_ERROR_CODE),
      efw_failure name (RInt (efw.code_value code))
        = ZwoFilterWheelError (name ++ " error " ++ str_int (efw.code_value code)
                               ++ " (" ++ efw.code_name code ++ ")"))
  /\ (forall (name : string) (z : Z),
      efw_known z = false ->
      efw_failure name (RInt z) = ValueError (RInt z) "EFW_ERROR_CODE").
Proof.
  split; [|split; [|split; [|split]]].
  - intros W lib s ids position direction efw_id. repeat apply conj.
    + run_method (@efw.EFWOpen).
    + run_method (@efw.EFWClose).
    + run_method (@efw.EFWSetPosition).
    + run_method (@efw.EFWSetDirection).
    + run_method (@efw.EFWCalibrate).
    + run_method (@efw.EFWSetID).
  - run_method (@eaf.EAFMove).
  - intros. unfold outcome. cbn [truthy]. now destruct (z =? 0).
  - exact efw_failure_member.
  - exact efw_failure_unknown.
Qed.

Lemma filter_wheel_mutators_true_only_on_zero_witness :
  efw_failure "EFWCalibrate" (RInt 77) = ValueError (RInt 77) "EFW_ERROR_CODE".
Proof.
  apply (proj2 (proj2 (proj2 (proj2 filter_wheel_mutators_true_only_on_zero)))).
  reflexivity.
Defined.

(** C10, as stated, fails on a nonzero status outside the enumeration:
    [EAFMove] then raises the enumeration's [ValueError], which is neither
    [True] nor a [ZwoFocuserError]. *)
Lemma focuser_move_status_42 :
  fst (eaf.EAFMove (eaf_double 42 [] (x00, x00, x00) [] 0) 0 1000 start)
    = Raise (ValueError (RInt 42) "EAF_ERROR_CODE").
Proof. reflexivity. Qed.

(** C10, amended. None of the ten boolean-returning focuser operations ever
    returns [False]: on status 0 the operation returns [True]; on a nonzero
    status it raises, a [ZwoFocuserError] named after the member when the
    status is in the enumeration and the enumeration's [ValueError]
    otherwise. *)
Theorem focuser_mutators_never_return_false :
  (forall W (lib : eaf.sdk.t W) (s : state W) (ids position : Z)
          (flag : bool) (eaf_id : EAF_ID),
      eaf.EAFOpen lib ids s
        = outcome "EAFOpen" eaf_failure
            (int_fn0 (eaf.sdk.EAFOpen lib (to_c_int ids)) (world s)) s
            (fun _ => VBool true)
      /\ eaf.EAFMove lib ids position s
        = outcome "EAFMove" eaf_failure
            (int_fn0 (eaf.sdk.EAFMove lib (to_c_int ids) (to_c_int position))
                     (world s)) s
            (fun _ => VBool true)
      /\ eaf.EAFStop lib ids s
        = outcome "EAFStop" eaf_failure
            (int_fn0 (eaf.sdk.EAFStop lib (to_c_int ids)) (world s)) s
            (fun _ => VBool true)
      /\ eaf.EAFResetPostion lib ids position s
        = outcome "EAFResetPostion" eaf_failure
            (int_fn0 (eaf.sdk.EAFResetPostion lib (to_c_int ids) (to_c_int position))
                     (world s)) s
            (fun _ => VBool true)
      /\ eaf.EAFSetBeep lib ids flag s
        = outcome "EAFSetBeep" eaf_failure
            (int_fn0 (eaf.sdk.EAFSetBeep lib (to_c_int ids) flag) (world s)) s
            (fun _ => VBool true)
      /\ eaf.EAFSetMaxStep lib ids position s
        = outcome "EAFSetMaxStep" eaf_failure
            (int_fn0 (eaf.sdk.EAFSetMaxStep lib (to_c_int ids) (to_c_int position))
                     (world s)) s
            (fun _ => VBool true)
      /\ eaf.EAFSetReverse lib ids flag s
        = outcome "EAFSetReverse" eaf_failure
            (int_fn0 (eaf.sdk.EAFSetReverse lib (to_c_int ids) flag) (world s)) s
            (fun _ => VBool true)
      /\ eaf.EAFSetBacklash lib ids position s
        = outcome "EAFSetBacklash" eaf_failure
            (int_fn0 (eaf.sdk.EAFSetBacklash lib (to_c_int ids) (to_c_int position))
                     (world s)) s
            (fun _ => VBool true)
      /\ eaf.EAFClose lib ids s
        = outcome "EAFClose" eaf_failure
            (int_fn0 (eaf.sdk.EAFClose lib (to_c_int ids)) (world s)) s
            (fun _ => VBool true)
      /\ eaf.EAFSetID lib ids eaf_id s
        = outcome "EAFSetID" eaf_failure
            (int_fn0 (eaf.sdk.EAFSetID lib (to_c_int ids) eaf_id) (world s)) s
            (fun _ => VBool true))
  /\ (forall W C (name : string) (fail : cresult -> exn) (z : Z) (cells : C)
             (w' : W) (s : state W),
      outcome name fail ((RInt z, cells), w') s (fun _ => VBool true)
        = (if z =? 0 then (Return (VBool true), called name w' s)
           else (Raise (fail (RInt z)), called name w' s))
      /\ fst (outcome name fail ((RInt z, cells), w') s (fun _ => VBool true))
         <> Return (VBool false))
  /\ (forall code : eaf.EAF_ERROR_CODE,
      eaf_failure (RInt (eaf.code_value code)) = ZwoFocuserError (eaf.code_name code))
  /\ (forall z : Z,
      eaf_known z = false ->
      eaf_failure (RInt z) = ValueError (RInt z) "EAF_ERROR_CODE").
Proof.
  split; [|split; [|split]].
  - intros W lib s ids position flag eaf_id. repeat apply conj.
    + run_method (@eaf.EAFOpen).
    + run_method (@eaf.EAFMove).
    + run_method (@eaf.EAFStop).
    + run_method (@eaf.EAFResetPostion).
    + run_method (@eaf.EAFSetBeep).
    + run_method (@eaf.EAFSetMaxStep).
    + run_method (@eaf.EAFSetReverse).
    + run_method (@eaf.EAFSetBacklash).
    + run_method (@eaf.EAFClose).
    + run_method (@eaf.EAFSetID).
  - intros. unfold outcome. cbn [truthy].
    destruct (z =? 0); cbn [negb fst]; split; try reflexivity; discriminate.
  - exact eaf_failure_member.
  - exact eaf_failure_unknown.
Qed.

Lemma focuser_mutators_never_return_false_witness :
  eaf_failure (RInt 42) = ValueError (RInt 42) "EAF_ERROR_CODE".
Proof.
  apply (proj2 (proj2 (proj2 focuser_mutators_never_return_false))).
  reflexivity.
Defined.

(** ** What a failure carries *)

(** C4, as stated, fails twice: a status outside the enumeration surfaces
    as the enumeration's [ValueError], not as the family's typed error; and
    the focuser's typed error carries the member's name only, so the
    operation is not in its message. *)
Lemma failure_payload_counterexample :
  fst (efw.EFWSetPosition (efw_double 42 [] (x00, x00, x00) [] 0) 0 2 start)
    = Raise (ValueError (RInt 42) "EFW_ERROR_CODE")
  /\ fst (eaf.EAFMove (eaf_double 1 [] (x00, x00, x00) [] 0) 0 1000 start)
    = Raise (ZwoFocuserError "EAF_ERROR_INVALID_INDEX")
  /\ contains "EAFMove" "EAF_ERROR_INVALID_INDEX" = false.
Proof. repeat split. Qed.

(** C4, amended. In both families, when an entry point outside the
    allow-list returns a nonzero status that is in the family's enumeration,
    what is raised is the family's typed error and its message contains the
    name of the matching member; the filter wheel's message also contains the
    name of the operation.  A nonzero status outside the enumeration is
    raised as the enumeration's [ValueError] instead. *)
Theorem known_failure_is_typed_and_names_kind :
  (forall W C (name : string) (fn : native W (cresult * C)) (s : state W)
          (code : eaf.EAF_ERROR_CODE) (cells : C) (w' : W),
      entry_point eaf._functions_ name = true ->
      set_mem name eaf.special_names = false ->
      code <> eaf.EAF_SUCCESS ->
      fn (world s) = ((RInt (eaf.code_value code), cells), w') ->
      exists msg,
        eaf._eaf name fn s = (Raise (ZwoFocuserError msg), called name w' s)
        /\ contains (eaf.code_name code) msg = true)
  /\ (forall W C (name : string) (fn : native W (cresult * C)) (s : state W)
             (code : efw.EFW_ERROR_CODE) (cells : C) (w' : W),
      entry_point efw._functions_ name = true ->
      set_mem name efw.special_names = false ->
      code <> efw.EFW_SUCCESS ->
      fn (world s) = ((RInt (efw.code_value code), cells), w') ->
      exists msg,
        efw._efw name fn s = (Raise (ZwoFilterWheelError msg), called name w' s)
        /\ contains (efw.code_name code) msg = true
        /\ contains name msg = true)
  /\ (forall W C (name : string) (fn : native W (cresult * C)) (s : state W)
             (z : Z) (cells : C) (w' : W),
      entry_point eaf._functions_ name = true ->
      set_mem name eaf.special_names = false ->
      z <> 0 -> eaf_known z = false ->
      fn (world s) = ((RInt z, cells), w') ->
      eaf._eaf name fn s
        = (Raise (ValueError (RInt z) "EAF_ERROR_CODE"), called name w' s))
  /\ (forall W C (name : string) (fn : native W (cresult * C)) (s : state W)
             (z : Z) (cells : C) (w' : W),
      entry_point efw._functions_ name = true ->
      set_mem name efw.special_names = false ->
      z <> 0 -> efw_known z = false ->
      fn (world s) = ((RInt z, cells), w') ->
      efw._efw name fn s
        = (Raise (ValueError (RInt z) "EFW_ERROR_CODE"), called name w' s)).
Proof.
  split; [|split; [|split]];
    [| | intros W C name fn s z cells w' He Hs Hz Hk Hfn;
         rewrite (eaf_checked_run name fn s z cells w' He Hs Hfn);
         destruct (Z.eqb_spec z 0); [contradiction|];
         now rewrite eaf_failure_unknown
       | intros W C name fn s z cells w' He Hs Hz Hk Hfn;
         rewrite (efw_checked_run name fn s z cells w' He Hs Hfn);
         destruct (Z.eqb_spec z 0); [contradiction|];
         now rewrite efw_failure_unknown ].
  - intros W C name fn s code cells w' He Hs Hc Hfn.
    exists (eaf.code_name code). split; [|apply contains_self].
    rewrite (eaf_checked_run name fn s _ cells w' He Hs Hfn).
    now rewrite (eaf_member_nonzero code Hc), eaf_failure_member.
  - intros W C name fn s code cells w' He Hs Hc Hfn.
    eexists. split; [|split].
    + rewrite (efw_checked_run name fn s _ cells w' He Hs Hfn).
      rewrite (efw_member_nonzero code Hc), efw_failure_member. reflexivity.
    + do 4 apply contains_skip. apply contains_prefix, prefix_append.
    + apply contains_prefix, prefix_append.
Qed.

Lemma known_failure_is_typed_and_names_kind_witness :
  (exists msg,
      eaf._eaf "EAFStop" (fun w : nat => ((RInt 9, tt), S w)) start
        = (Raise (ZwoFocuserError msg), called "EAFStop" 1%nat start)
      /\ contains "EAF_ERROR_CLOSED" msg = true)
  /\ (exists msg,
      efw._efw "EFWCalibrate" (fun w : nat => ((RInt (-1), tt), S w)) start
        = (Raise (ZwoFilterWheelError msg), called "EFWCalibrate" 1%nat start)
      /\ contains "EFW_ERROR_END" msg = true
      /\ contains "EFWCalibrate" msg = true)
  /\ eaf._eaf "EAFStop" (fun w : nat => ((RInt 10, tt), S w)) start
      = (Raise (ValueError (RInt 10) "EAF_ERROR_CODE"), called "EAFStop" 1%nat start)
  /\ efw._efw "EFWCalibrate" (fun w : nat => ((RInt (-2), tt), S w)) start
      = (Raise (ValueError (RInt (-2)) "EFW_ERROR_CODE"),
         called "EFWCalibrate" 1%nat start).
Proof.
  destruct known_failure_is_typed_and_names_kind as (H1 & H2 & H3 & H4).
  split; [|split; [|split]].
  - apply (H1 nat unit "EAFStop" _ start eaf.EAF_ERROR_CLOSED tt 1%nat);
      [reflexivity | reflexivity | discriminate | reflexivity].
  - apply (H2 nat unit "EFWCalibrate" _ start efw.EFW_ERROR_END tt 1%nat);
      [reflexivity | reflexivity | discriminate | reflexivity].
  - apply (H3 nat unit "EAFStop" _ start 10 tt 1%nat);
      [reflexivity | reflexivity | lia | reflexivity | reflexivity].
  - apply (H4 nat unit "EFWCalibrate" _ start (-2) tt 1%nat);
      [reflexivity | reflexivity | lia | reflexivity | reflexivity].
Defined.

(** ** Unmarshalling *)

Ltac run_with H :=
  unfold bind, ret;
  first [rewrite eaf_run | rewrite efw_run];
  unfold int_fn; rewrite H;
  cbn [set_mem existsb eaf.special_names efw.special_names
       String.eqb Ascii.eqb Bool.eqb orb negb];
  rewrite ?andb_false_r; reflexivity.

(** C6, as stated, fails for the filter wheel: its firmware query returns
    the three components as a tuple of integers, not as text. *)
Lemma filter_wheel_firmware_is_a_tuple :
  fst (efw.EFWGetFirmwareVersion (efw_double 0 [] (x01, x02, x0f) [] 0) 0 start)
    = Return (VTuple [1; 2; 15])
  /\ fst (efw.EFWGetFirmwareVersion (efw_double 0 [] (x01, x02, x0f) [] 0) 0 start)
    <> Return (VStr "1.2.15").
Proof. split; [reflexivity | discriminate]. Qed.

(** C6, amended. When the native call succeeds, the focuser's firmware
    query formats the three bytes the library wrote as the text
    "major.minor.build", so the bytes (1, 2, 15) give "1.2.15"; the filter
    wheel's firmware query returns the same three bytes as the tuple of
    integers (major, minor, build), so (1, 2, 15) gives (1, 2, 15). *)
Theorem firmware_version_text_or_tuple :
  (forall W (lib : eaf.sdk.t W) (s : state W) (ids : Z)
          (major minor build : byte) (w' : W),
      eaf.sdk.EAFGetFirmwareVersion lib (to_c_int ids) (x00, x00, x00) (world s)
        = ((0, (major, minor, build)), w') ->
      eaf.EAFGetFirmwareVersion lib ids s
        = (Return (VStr (str_int (ubyte_value major) ++ "."
                         ++ str_int (ubyte_value minor) ++ "."
                         ++ str_int (ubyte_value build))),
           called "EAFGetFirmwareVersion" w' s))
  /\ (forall W (lib : eaf.sdk.t W) (s : state W) (ids : Z) (w' : W),
      eaf.sdk.EAFGetFirmwareVersion lib (to_c_int ids) (x00, x00, x00) (world s)
        = ((0, (x01, x02, x0f)), w') ->
      eaf.EAFGetFirmwareVersion lib ids s
        = (Return (VStr "1.2.15"), called "EAFGetFirmwareVersion" w' s))
  /\ (forall W (lib : efw.sdk.t W) (s : state W) (ids : Z)
          (major minor build : byte) (w' : W),
      efw.sdk.EFWGetFirmwareVersion lib (to_c_int ids) (x00, x00, x00) (world s)
        = ((0, (major, minor, build)), w') ->
      efw.EFWGetFirmwareVersion lib ids s
        = (Return (VTuple [ubyte_value major; ubyte_value minor; ubyte_value build]),
           called "EFWGetFirmwareVersion" w' s)).
Proof.
  split; [|split].
  - intros W lib s ids major minor build w' H.
    unfold eaf.EAFGetFirmwareVersion. run_with H.
  - intros W lib s ids w' H.
    unfold eaf.EAFGetFirmwareVersion. run_with H.
  - intros W lib s ids major minor build w' H.
    unfold efw.EFWGetFirmwareVersion. run_with H.
Qed.

Lemma firmware_version_text_or_tuple_witness :
  eaf.EAFGetFirmwareVersion (eaf_double 0 [] (x03, x00, xff) [] 0) 4 start
    = (Return (VStr "3.0.255"), called "EAFGetFirmwareVersion" 1%nat start)
  /\ eaf.EAFGetFirmwareVersion (eaf_double 0 [] (x01, x02, x0f) [] 0) 4 start
    = (Return (VStr "1.2.15"), called "EAFGetFirmwareVersion" 1%nat start)
  /\ efw.EFWGetFirmwareVersion (efw_double 0 [] (x01, x02, x0f) [] 0) 4 start
    = (Return (VTuple [1; 2; 15]), called "EFWGetFirmwareVersion" 1%nat start).
Proof.
  destruct firmware_version_text_or_tuple as (H1 & H2 & H3).
  split; [|split].
  - apply (H1 nat (eaf_double 0 [] (x03, x00, xff) [] 0) start 4 x03 x00 xff 1%nat).
    reflexivity.
  - apply (H2 nat (eaf_double 0 [] (x01, x02, x0f) [] 0) start 4 1%nat).
    reflexivity.
  - apply (H3 nat (efw_double 0 [] (x01, x02, x0f) [] 0) start 4 x01 x02 x0f 1%nat).
    reflexivity.
Defined.

Lemma ubyte_value_range (b : byte) : 0 <= ubyte_value b < 256.
Proof. destruct b; vm_compute; split; congruence. Qed.

(** C7. When the native call succeeds, [EAFGetSerialNumber] returns the
    eight bytes of the serial record read as one big-endian unsigned integer
    (the first byte is the most significant), so seven zero bytes followed by
    0x05 give 5; [EFWGetSerialNumber] returns the record itself, with the
    bytes as the library wrote them. *)
Theorem serial_number_big_endian_or_raw :
  (forall W (lib : eaf.sdk.t W) (s : state W) (ids : Z) (serial : EAF_ID) (w' : W),
      eaf.sdk.EAFGetSerialNumber lib (to_c_int ids) {| eaf_id := repeat x00 8 |}
          (world s) = ((0, serial), w') ->
      eaf.EAFGetSerialNumber lib ids s
        = (Return (VInt (int_from_bytes_big (eaf_id serial))),
           called "EAFGetSerialNumber" w' s))
  /\ (forall b0 b1 b2 b3 b4 b5 b6 b7 : byte,
      int_from_bytes_big [b0; b1; b2; b3; b4; b5; b6; b7]
        = ubyte_value b0 * 2 ^ 56 + ubyte_value b1 * 2 ^ 48
          + ubyte_value b2 * 2 ^ 40 + ubyte_value b3 * 2 ^ 32
          + ubyte_value b4 * 2 ^ 24 + ubyte_value b5 * 2 ^ 16
          + ubyte_value b6 * 2 ^ 8 + ubyte_value b7
      /\ 0 <= int_from_bytes_big [b0; b1; b2; b3; b4; b5; b6; b7] < 2 ^ 64)
  /\ int_from_bytes_big [x00; x00; x00; x00; x00; x00; x00; x05] = 5
  /\ (forall W (lib : efw.sdk.t W) (s : state W) (ids : Z) (serial : EFW_ID) (w' : W),
      efw.sdk.EFWGetSerialNumber lib (to_c_int ids) {| efw_id := repeat x00 8 |}
          (world s) = ((0, serial), w') ->
      efw.EFWGetSerialNumber lib ids s
        = (Return (VEfwId serial), called "EFWGetSerialNumber" w' s)).
Proof.
  split; [|split; [|split]].
  - intros W lib s ids serial w' H.
    unfold eaf.EAFGetSerialNumber. run_with H.
  - intros b0 b1 b2 b3 b4 b5 b6 b7.
    assert (E : int_from_bytes_big [b0; b1; b2; b3; b4; b5; b6; b7]
                = ubyte_value b0 * 2 ^ 56 + ubyte_value b1 * 2 ^ 48
                  + ubyte_value b2 * 2 ^ 40 + ubyte_value b3 * 2 ^ 32
                  + ubyte_value b4 * 2 ^ 24 + ubyte_value b5 * 2 ^ 16
                  + ubyte_value b6 * 2 ^ 8 + ubyte_value b7).
    { unfold int_from_bytes_big. cbn [fold_left]. lia. }
    split; [exact E|]. rewrite E.
    pose proof (ubyte_value_range b0). pose proof (ubyte_value_range b1).
    pose proof (ubyte_value_range b2). pose proof (ubyte_value_range b3).
    pose proof (ubyte_value_range b4). pose proof (ubyte_value_range b5).
    pose proof (ubyte_value_range b6). pose proof (ubyte_value_range b7).
    lia.
  - reflexivity.
  - intros W lib s ids serial w' H.
    unfold efw.EFWGetSerialNumber. run_with H.
Qed.

Lemma serial_number_big_endian_or_raw_witness :
  eaf.EAFGetSerialNumber (eaf_double 0 [] (x00, x00, x00) serial_five 0) 0 start
    = (Return (VInt 5), called "EAFGetSerialNumber" 1%nat start)
  /\ efw.EFWGetSerialNumber (efw_double 0 [] (x00, x00, x00) serial_five 0) 0 start
    = (Return (VEfwId {| efw_id := serial_five |}),
       called "EFWGetSerialNumber" 1%nat start).
Proof.
  destruct serial_number_big_endian_or_raw as (H1 & _ & _ & H4).
  split.
  - apply (H1 nat (eaf_double 0 [] (x00, x00, x00) serial_five 0) start 0
              {| eaf_id := serial_five |} 1%nat).
    reflexivity.
  - apply (H4 nat (efw_double 0 [] (x00, x00, x00) serial_five 0) start 0
              {| efw_id := serial_five |} 1%nat).
    reflexivity.
Defined.

Lemma slice_to_in_range {A} (n : Z) (l : list A) :
  0 <= n <= Z.of_nat (List.length l) ->
  slice_to n l = firstn (Z.to_nat n) l
  /\ Z.of_nat (List.length (slice_to n l)) = n.
Proof.
  intros H. unfold slice_to.
  destruct (Z.ltb_spec n 0); [lia|].
  split; [reflexivity|].
  rewrite List.length_firstn. lia.
Qed.

(** C8. When the native get-product-IDs call reports a length [n] with
    [0 <= n <= 128], the method returns exactly the first [n] slots of the
    128-slot buffer the library filled, and nothing else; a reported length
    of 3 yields the first three slots.  This holds for both families. *)
Theorem product_ids_truncated_to_reported_length :
  (forall W (lib : eaf.sdk.t W) (s : state W) (n : Z) (buffer : list Z) (w' : W),
      eaf.sdk.EAFGetProductIDs lib (repeat 0 128) (world s) = ((n, buffer), w') ->
      List.length buffer = 128%nat ->
      0 <= n <= 128 ->
      eaf.EAFGetProductIDs lib s
        = (Return (VTuple (firstn (Z.to_nat n) buffer)),
           called "EAFGetProductIDs" w' s)
      /\ Z.of_nat (List.length (firstn (Z.to_nat n) buffer)) = n)
  /\ (forall W (lib : efw.sdk.t W) (s : state W) (n : Z) (buffer : list Z) (w' : W),
      efw.sdk.EFWGetProductIDs lib (repeat 0 128) (world s) = ((n, buffer), w') ->
      List.length buffer = 128%nat ->
      0 <= n <= 128 ->
      efw.EFWGetProductIDs lib s
        = (Return (VTuple (firstn (Z.to_nat n) buffer)),
           called "EFWGetProductIDs" w' s)
      /\ Z.of_nat (List.length (firstn (Z.to_nat n) buffer)) = n).
Proof.
  split.
  - intros W lib s n buffer w' H Hlen Hn.
    assert (Hr : 0 <= n <= Z.of_nat (List.length buffer)) by (rewrite Hlen; lia).
    destruct (slice_to_in_range n buffer Hr) as [E L].
    rewrite <- E. split; [|exact L].
    unfold eaf.EAFGetProductIDs, eaf.EAF_ID_MAX. run_with H.
  - intros W lib s n buffer w' H Hlen Hn.
    assert (Hr : 0 <= n <= Z.of_nat (List.length buffer)) by (rewrite Hlen; lia).
    destruct (slice_to_in_range n buffer Hr) as [E L].
    rewrite <- E. split; [|exact L].
    unfold efw.EFWGetProductIDs, efw.EFW_ID_MAX. run_with H.
Qed.

Lemma product_ids_truncated_to_reported_length_witness :
  (eaf.EAFGetProductIDs (eaf_double 3 three_pids (x00, x00, x00) [] 0) start
     = (Return (VTuple [7937; 7938; 7939]), called "EAFGetProductIDs" 1%nat start)
   /\ Z.of_nat (List.length (firstn (Z.to_nat 3) three_pids)) = 3)
  /\ (efw.EFWGetProductIDs (efw_double 3 three_pids (x00, x00, x00) [] 0) start
     = (Return (VTuple [7937; 7938; 7939]), called "EFWGetProductIDs" 1%nat start)
   /\ Z.of_nat (List.length (firstn (Z.to_nat 3) three_pids)) = 3).
Proof.
  split.
  - apply (proj1 product_ids_truncated_to_reported_length
             nat (eaf_double 3 three_pids (x00, x00, x00) [] 0) start 3 three_pids 1%nat);
      [reflexivity | reflexivity | lia].
  - apply (proj2 product_ids_truncated_to_reported_length
             nat (efw_double 3 three_pids (x00, x00, x00) [] 0) start 3 three_pids 1%nat);
      [reflexivity | reflexivity | lia].
Defined.

(** Outside that range Python's slice rules apply: a negative length drops
    slots from the end of the buffer. *)
Example product_ids_negative_length :
  fst (eaf.EAFGetProductIDs (eaf_double (-126) three_pids (x00, x00, x00) [] 0) start)
    = Return (VTuple [7937; 7938]).
Proof. reflexivity. Qed.

(** * Further properties of the binding *)

(** ** The error-code enumerations *)

Lemma find_value_sound {A} (value_of : A -> Z) (l : list A) (z : Z) (c : A) :
  find (fun c => value_of c =? z) l = Some c -> value_of c = z.
Proof.
  intros H. apply find_some in H. destruct H as [_ H]. now apply Z.eqb_eq.
Qed.

Lemma eaf_lookup_sound (z : Z) (c : eaf.EAF_ERROR_CODE) :
  eaf.lookup_code (RInt z) = Return c -> eaf.code_value c = z.
Proof.
  unfold eaf.lookup_code.
  destruct (find _ eaf.members) as [c0|] eqn:E; [|discriminate].
  intros [= <-]. now apply (find_value_sound eaf.code_value eaf.members).
Qed.

Lemma efw_lookup_sound (z : Z) (c : efw.EFW_ERROR_CODE) :
  efw.lookup_code (RInt z) = Return c -> efw.code_value c = z.
Proof.
  unfold efw.lookup_code.
  destruct (find _ efw.members) as [c0|] eqn:E; [|discriminate].
  intros [= <-]. now apply (find_value_sound efw.code_value efw.members).
Qed.

Lemma eaf_lookup_raises_value_error (r : cresult) (e : exn) :
  eaf.lookup_code r = Raise e -> e = ValueError r "EAF_ERROR_CODE".
Proof.
  unfold eaf.lookup_code. destruct r as [z|p].
  - destruct (find _ eaf.members); [discriminate | now intros [= <-]].
  - now intros [= <-].
Qed.

Lemma efw_lookup_raises_value_error (r : cresult) (e : exn) :
  efw.lookup_code r = Raise e -> e = ValueError r "EFW_ERROR_CODE".
Proof.
  unfold efw.lookup_code. destruct r as [z|p].
  - destruct (find _ efw.members); [discriminate | now intros [= <-]].
  - now intros [= <-].
Qed.

(** X1. In both families the enumeration lookup is the exact inverse of
    [member.value]: an integer is accepted by the lookup precisely when it is
    the value of the member returned, so no two members share a value, and no
    two members share a name either. *)
Theorem error_code_lookup_inverts_value :
  (forall (z : Z) (c : eaf.EAF_ERROR_CODE),
      eaf.lookup_code (RInt z) = Return c <-> eaf.code_value c = z)
  /\ (forall c c' : eaf.EAF_ERROR_CODE,
      eaf.code_name c = eaf.code_name c' -> c = c')
  /\ (forall (z : Z) (c : efw.EFW_ERROR_CODE),
      efw.lookup_code (RInt z) = Return c <-> efw.code_value c = z)
  /\ (forall c c' : efw.EFW_ERROR_CODE,
      efw.code_name c = efw.code_name c' -> c = c').
Proof.
  split; [|split; [|split]].
  - intros z c. split.
    + apply eaf_lookup_sound.
    + intros <-. apply eaf_lookup_member.
  - intros c c' H. destruct c, c'; try reflexivity; discriminate H.
  - intros z c. split.
    + apply efw_lookup_sound.
    + intros <-. apply efw_lookup_member.
  - intros c c' H. destruct c, c'; try reflexivity; discriminate H.
Qed.

Lemma error_code_lookup_inverts_value_witness :
  eaf.code_value eaf.EAF_ERROR_END = -1
  /\ eaf.EAF_ERROR_MOVING = eaf.EAF_ERROR_MOVING
  /\ efw.lookup_code (RInt 9) = Return efw.EFW_ERROR_CLOSED
  /\ efw.EFW_ERROR_REMOVED = efw.EFW_ERROR_REMOVED.
Proof.
  destruct error_code_lookup_inverts_value as (H1 & H2 & H3 & H4).
  split; [|split; [|split]].
  - apply (proj1 (H1 (-1) eaf.EAF_ERROR_END)). reflexivity.
  - apply (H2 eaf.EAF_ERROR_MOVING eaf.EAF_ERROR_MOVING). reflexivity.
  - apply (proj2 (H3 9 efw.EFW_ERROR_CLOSED)). reflexivity.
  - apply (H4 efw.EFW_ERROR_REMOVED efw.EFW_ERROR_REMOVED). reflexivity.
Defined.

(** ** The error mapper, read backwards *)


Lemma dict_get_missing {V} (d : list (string * V)) (k : string) :
  existsb (fun kv => String.eqb (fst kv) k) d = false ->
  dict_get d k = Raise (KeyError k).
Proof.
  induction d as [|[k' v'] d IH]; cbn [dict_get existsb fst]; [reflexivity|].
  destruct (String.eqb k' k); [discriminate | exact IH].
Qed.

(** X2. A typed error is raised only for a status-returning entry point
    whose native status is nonzero and is the value of a member other than
    the success member: the message of a [ZwoFocuserError] is that member's
    name, the message of a [ZwoFilterWheelError] is built from the operation,
    the status and that member's name.  So the success member never shows up
    as an error kind, and an allow-listed entry point never raises a typed
    error. *)
Theorem typed_error_comes_from_known_nonzero_status :
  (forall W C (name : string) (fn : native W (cresult * C)) (s : state W)
          (msg : string),
      fst (eaf._eaf name fn s) = Raise (ZwoFocuserError msg) ->
      exists code,
        code <> eaf.EAF_SUCCESS
        /\ msg = eaf.code_name code
        /\ fst (fst (fn (world s))) = RInt (eaf.code_value code)
        /\ eaf.code_value code <> 0
        /\ set_mem name eaf.special_names = false
        /\ entry_point eaf._functions_ name = true)
  /\ (forall W C (name : string) (fn : native W (cresult * C)) (s : state W)
             (msg : string),
      fst (efw._efw name fn s) = Raise (ZwoFilterWheelError msg) ->
      exists code,
        code <> efw.EFW_SUCCESS
        /\ msg = (name ++ " error " ++ str_int (efw.code_value code)
                  ++ " (" ++ efw.code_name code ++ ")")%string
        /\ fst (fst (fn (world s))) = RInt (efw.code_value code)
        /\ efw.code_value code <> 0
        /\ set_mem name efw.special_names = false
        /\ entry_point efw._functions_ name = true).
Proof.
  split.
  - intros W C name fn s msg. rewrite eaf_run.
    destruct (entry_point eaf._functions_ name) eqn:Ee;
      [|unfold entry_point in Ee; rewrite (dict_get_missing _ _ Ee); discriminate].
    destruct (dict_get_entry_point _ _ Ee) as [p ->].
    destruct (fn (world s)) as [[r cells] w']. cbn [fst].
    destruct (truthy r) eqn:Et; cbn [andb]; [|discriminate].
    destruct (set_mem name eaf.special_names) eqn:Es; cbn [negb fst]; [discriminate|].
    unfold eaf_failure.
    destruct (eaf.lookup_code r) as [c|e] eqn:El.
    + intros [= <-]. destruct r as [z|p0]; [|discriminate El].
      apply eaf_lookup_sound in El. subst z.
      cbn [truthy] in Et. apply negb_true_iff, Z.eqb_neq in Et.
      exists c. repeat apply conj; try reflexivity; try assumption.
      intros ->. now apply Et.
    + rewrite (eaf_lookup_raises_value_error _ _ El). discriminate.
  - intros W C name fn s msg. rewrite efw_run.
    destruct (entry_point efw._functions_ name) eqn:Ee;
      [|unfold entry_point in Ee; rewrite (dict_get_missing _ _ Ee); discriminate].
    destruct (dict_get_entry_point _ _ Ee) as [p ->].
    destruct (fn (world s)) as [[r cells] w']. cbn [fst].
    destruct (truthy r) eqn:Et; cbn [andb]; [|discriminate].
    destruct (set_mem name efw.special_names) eqn:Es; cbn [negb fst]; [discriminate|].
    unfold efw_failure.
    destruct (efw.lookup_code r) as [c|e] eqn:El.
    + intros [= <-]. destruct r as [z|p0]; [|discriminate El].
      apply efw_lookup_sound in El. subst z.
      cbn [truthy] in Et. apply negb_true_iff, Z.eqb_neq in Et.
      exists c. repeat apply conj; try reflexivity; try assumption.
      intros ->. now apply Et.
    + rewrite (efw_lookup_raises_value_error _ _ El). discriminate.
Qed.

Lemma typed_error_comes_from_known_nonzero_status_witness :
  (exists code,
      code <> eaf.EAF_SUCCESS
      /\ "EAF_ERROR_REMOVED" = eaf.code_name code
      /\ RInt 4 = RInt (eaf.code_value code)
      /\ eaf.code_value code <> 0
      /\ set_mem "EAFClose" eaf.special_names = false
      /\ entry_point eaf._functions_ "EAFClose" = true)
  /\ (exists code,
      code <> efw.EFW_SUCCESS
      /\ "EFWOpen error 2 (EFW_ERROR_INVALID_ID)"
         = ("EFWOpen" ++ " error " ++ str_int (efw.code_value code)
            ++ " (" ++ efw.code_name code ++ ")")%string
      /\ RInt 2 = RInt (efw.code_value code)
      /\ efw.code_value code <> 0
      /\ set_mem "EFWOpen" efw.special_names = false
      /\ entry_point efw._functions_ "EFWOpen" = true).
Proof.
  split.
  - apply (proj1 typed_error_comes_from_known_nonzero_status
             nat unit "EAFClose" (fun w : nat => ((RInt 4, tt), S w)) start
             "EAF_ERROR_REMOVED").
    reflexivity.
  - apply (proj2 typed_error_comes_from_known_nonzero_status
             nat unit "EFWOpen" (fun w : nat => ((RInt 2, tt), S w)) start
             "EFWOpen error 2 (EFW_ERROR_INVALID_ID)").
    reflexivity.
Defined.

(** ** One native call per operation *)

(** X3. Going through [self._eaf.<name>] or [self._efw.<name>] with a name
    of the [_functions_] table invokes the native entry point exactly once,
    under that name, whether the mapper then returns or raises: the state
    afterwards is the world the library left plus one trace entry.  With a
    name that is not in the table, [__getattr__] raises [KeyError] and the
    library is not entered at all. *)
Theorem mapper_enters_library_once_or_never :
  (forall W C (name : string) (fn : native W (cresult * C)) (s : state W),
      (entry_point eaf._functions_ name = true ->
       snd (eaf._eaf name fn s) = called name (snd (fn (world s))) s)
      /\ (entry_point eaf._functions_ name = false ->
          eaf._eaf name fn s = (Raise (KeyError name), s)))
  /\ (forall W C (name : string) (fn : native W (cresult * C)) (s : state W),
      (entry_point efw._functions_ name = true ->
       snd (efw._efw name fn s) = called name (snd (fn (world s))) s)
      /\ (entry_point efw._functions_ name = false ->
          efw._efw name fn s = (Raise (KeyError name), s))).
Proof.
  split.
  - intros W C name fn s. rewrite eaf_run. split; intros He.
    + destruct (dict_get_entry_point _ _ He) as [p ->].
      destruct (fn (world s)) as [[r cells] w']. cbn [snd].
      now destruct (truthy r && negb (set_mem name eaf.special_names)).
    + unfold entry_point in He. now rewrite (dict_get_missing _ _ He).
  - intros W C name fn s. rewrite efw_run. split; intros He.
    + destruct (dict_get_entry_point _ _ He) as [p ->].
      destruct (fn (world s)) as [[r cells] w']. cbn [snd].
      now destruct (truthy r && negb (set_mem name efw.special_names)).
    + unfold entry_point in He. now rewrite (dict_get_missing _ _ He).
Qed.

Lemma mapper_enters_library_once_or_never_witness :
  snd (eaf._eaf "EAFStop" (fun w : nat => ((RInt 6, tt), S w)) start)
    = called "EAFStop" 1%nat start
  /\ eaf._eaf "EAFGetTemperature" (fun w : nat => ((RInt 0, 0), S w)) start
    = (Raise (KeyError "EAFGetTemperature"), start)
  /\ snd (efw._efw "EFWGetNum" (fun w : nat => ((RInt 2, tt), S w)) start)
    = called "EFWGetNum" 1%nat start
  /\ efw._efw "EFWStop" (fun w : nat => ((RInt 0, tt), S w)) start
    = (Raise (KeyError "EFWStop"), start).
Proof.
  destruct mapper_enters_library_once_or_never as [Ha Hw].
  split; [|split; [|split]].
  - apply (proj1 (Ha nat unit "EAFStop" (fun w : nat => ((RInt 6, tt), S w)) start)).
    reflexivity.
  - apply (proj2 (Ha nat Z "EAFGetTemperature"
                     (fun w : nat => ((RInt 0, 0), S w)) start)).
    reflexivity.
  - apply (proj1 (Hw nat unit "EFWGetNum" (fun w : nat => ((RInt 2, tt), S w)) start)).
    reflexivity.
  - apply (proj2 (Hw nat unit "EFWStop" (fun w : nat => ((RInt 0, tt), S w)) start)).
    reflexivity.
Defined.

Ltac one_call m :=
  intros; unfold m, bind, ret, raise;
  first [rewrite eaf_run | rewrite efw_run];
  unfold int_fn, int_fn0, char_p_fn0;
  destruct_native_reply;
  cbn [dict_get eaf._functions_ efw._functions_ String.eqb Ascii.eqb Bool.eqb
       set_mem existsb eaf.special_names efw.special_names orb negb fst snd];
  cbn [truthy char_p_of]; rewrite ?andb_true_r, ?andb_false_r;
  repeat match goal with
         | |- context [negb (?z =? 0)] => destruct (z =? 0); cbn [negb]
         | cells : (_ * _)%type |- _ => destruct cells
         | p : option string |- _ => destruct p; cbn [char_p_of]
         | |- context [is_ascii ?b] => destruct (is_ascii b)
         end;
  reflexivity.

(** X4. Every method of [Focuser] enters the library exactly once per
    invocation, through the entry point that bears the method's own name, and
    hands on the world exactly as the library left it, whatever the status:
    nothing is retried, skipped or rolled back, and no other entry point is
    touched. *)
Theorem focuser_methods_make_one_native_call :
  forall W (lib : eaf.sdk.t W) (s : state W) (ids x : Z) (flag : bool)
         (alias : EAF_ID),
    snd (eaf.EAFGetNum lib s)
      = called "EAFGetNum" (snd (eaf.sdk.EAFGetNum lib (world s))) s
    /\ snd (eaf.EAFGetProductIDs lib s)
      = called "EAFGetProductIDs"
          (snd (eaf.sdk.EAFGetProductIDs lib (repeat 0 128) (world s))) s
    /\ snd (eaf.EAFCheck lib ids x s)
      = called "EAFCheck"
          (snd (eaf.sdk.EAFCheck lib (to_c_int ids) (to_c_int x) (world s))) s
    /\ snd (eaf.EAFGetID lib ids s)
      = called "EAFGetID" (snd (eaf.sdk.EAFGetID lib (to_c_int ids) 0 (world s))) s
    /\ snd (eaf.EAFOpen lib ids s)
      = called "EAFOpen" (snd (eaf.sdk.EAFOpen lib (to_c_int ids) (world s))) s
    /\ snd (eaf.EAFGetProperty lib ids s)
      = called "EAFGetProperty"
          (snd (eaf.sdk.EAFGetProperty lib (to_c_int ids)
                  {| eaf_ID := 0; eaf_Name := repeat x00 64; MaxStep := 0 |}
                  (world s))) s
    /\ snd (eaf.EAFMove lib ids x s)
      = called "EAFMove"
          (snd (eaf.sdk.EAFMove lib (to_c_int ids) (to_c_int x) (world s))) s
    /\ snd (eaf.EAFStop lib ids s)
      = called "EAFStop" (snd (eaf.sdk.EAFStop lib (to_c_int ids) (world s))) s
    /\ snd (eaf.EAFIsMoving lib ids s)
      = called "EAFIsMoving"
          (snd (eaf.sdk.EAFIsMoving lib (to_c_int ids) (false, false) (world s))) s
    /\ snd (eaf.EAFGetPosition lib ids s)
      = called "EAFGetPosition"
          (snd (eaf.sdk.EAFGetPosition lib (to_c_int ids) 0 (world s))) s
    /\ snd (eaf.EAFResetPostion lib ids x s)
      = called "EAFResetPostion"
          (snd (eaf.sdk.EAFResetPostion lib (to_c_int ids) (to_c_int x) (world s))) s
    /\ snd (eaf.EAFGetTemp lib ids s)
      = called "EAFGetTemp" (snd (eaf.sdk.EAFGetTemp lib (to_c_int ids) 0 (world s))) s
    /\ snd (eaf.EAFSetBeep lib ids flag s)
      = called "EAFSetBeep"
          (snd (eaf.sdk.EAFSetBeep lib (to_c_int ids) flag (world s))) s
    /\ snd (eaf.EAFGetBeep lib ids s)
      = called "EAFGetBeep"
          (snd (eaf.sdk.EAFGetBeep lib (to_c_int ids) false (world s))) s
    /\ snd (eaf.EAFSetMaxStep lib ids x s)
      = called "EAFSetMaxStep"
          (snd (eaf.sdk.EAFSetMaxStep lib (to_c_int ids) (to_c_int x) (world s))) s
    /\ snd (eaf.EAFGetMaxStep lib ids s)
      = called "EAFGetMaxStep"
          (snd (eaf.sdk.EAFGetMaxStep lib (to_c_int ids) 0 (world s))) s
    /\ snd (eaf.EAFStepRange lib ids s)
      = called "EAFStepRange"
          (snd (eaf.sdk.EAFStepRange lib (to_c_int ids) 0 (world s))) s
    /\ snd (eaf.EAFSetReverse lib ids flag s)
      = called "EAFSetReverse"
          (snd (eaf.sdk.EAFSetReverse lib (to_c_int ids) flag (world s))) s
    /\ snd (eaf.EAFGetReverse lib ids s)
      = called "EAFGetReverse"
          (snd (eaf.sdk.EAFGetReverse lib (to_c_int ids) false (world s))) s
    /\ snd (eaf.EAFSetBacklash lib ids x s)
      = called "EAFSetBacklash"
          (snd (eaf.sdk.EAFSetBacklash lib (to_c_int ids) (to_c_int x) (world s))) s
    /\ snd (eaf.EAFGetBacklash lib ids s)
      = called "EAFGetBacklash"
          (snd (eaf.sdk.EAFGetBacklash lib (to_c_int ids) 0 (world s))) s
    /\ snd (eaf.EAFClose lib ids s)
      = called "EAFClose" (snd (eaf.sdk.EAFClose lib (to_c_int ids) (world s))) s
    /\ snd (eaf.EAFGetSDKVersion lib s)
      = called "EAFGetSDKVersion" (snd (eaf.sdk.EAFGetSDKVersion lib (world s))) s
    /\ snd (eaf.EAFGetFirmwareVersion lib ids s)
      = called "EAFGetFirmwareVersion"
          (snd (eaf.sdk.EAFGetFirmwareVersion lib (to_c_int ids) (x00, x00, x00)
                  (world s))) s
    /\ snd (eaf.EAFGetSerialNumber lib ids s)
      = called "EAFGetSerialNumber"
          (snd (eaf.sdk.EAFGetSerialNumber lib (to_c_int ids)
                  {| eaf_id := repeat x00 8 |} (world s))) s
    /\ snd (eaf.EAFSetID lib ids alias s)
      = called "EAFSetID" (snd (eaf.sdk.EAFSetID lib (to_c_int ids) alias (world s))) s.
Proof.
  intros W lib s ids x flag alias. repeat apply conj.
  - one_call (@eaf.EAFGetNum).
  - unfold eaf.EAFGetProductIDs, eaf.EAF_ID_MAX. one_call (@eaf.EAFGetProductIDs).
  - one_call (@eaf.EAFCheck).
  - one_call (@eaf.EAFGetID).
  - one_call (@eaf.EAFOpen).
  - one_call (@eaf.EAFGetProperty).
  - one_call (@eaf.EAFMove).
  - one_call (@eaf.EAFStop).
  - one_call (@eaf.EAFIsMoving).
  - one_call (@eaf.EAFGetPosition).
  - one_call (@eaf.EAFResetPostion).
  - one_call (@eaf.EAFGetTemp).
  - one_call (@eaf.EAFSetBeep).
  - one_call (@eaf.EAFGetBeep).
  - one_call (@eaf.EAFSetMaxStep).
  - one_call (@eaf.EAFGetMaxStep).
  - one_call (@eaf.EAFStepRange).
  - one_call (@eaf.EAFSetReverse).
  - one_call (@eaf.EAFGetReverse).
  - one_call (@eaf.EAFSetBacklash).
  - one_call (@eaf.EAFGetBacklash).
  - one_call (@eaf.EAFClose).
  - one_call (@eaf.EAFGetSDKVersion).
  - one_call (@eaf.EAFGetFirmwareVersion).
  - one_call (@eaf.EAFGetSerialNumber).
  - one_call (@eaf.EAFSetID).
Qed.

(** X5. Every method of [FilterWheel] enters the library exactly once per
    invocation, through the entry point that bears the method's own name, and
    hands on the world exactly as the library left it, whatever the status. *)
Theorem filter_wheel_methods_make_one_native_call :
  forall W (lib : efw.sdk.t W) (s : state W) (ids x : Z) (flag : bool)
         (alias : EFW_ID),
    snd (efw.EFWGetNum lib s)
      = called "EFWGetNum" (snd (efw.sdk.EFWGetNum lib (world s))) s
    /\ snd (efw.EFWGetProductIDs lib s)
      = called "EFWGetProductIDs"
          (snd (efw.sdk.EFWGetProductIDs lib (repeat 0 128) (world s))) s
    /\ snd (efw.EFWGetID lib ids s)
      = called "EFWGetID" (snd (efw.sdk.EFWGetID lib (to_c_int ids) 0 (world s))) s
    /\ snd (efw.EFWOpen lib ids s)
      = called "EFWOpen" (snd (efw.sdk.EFWOpen lib (to_c_int ids) (world s))) s
    /\ snd (efw.EFWClose lib ids s)
      = called "EFWClose" (snd (efw.sdk.EFWClose lib (to_c_int ids) (world s))) s
    /\ snd (efw.EFWGetProperty lib ids s)
      = called "EFWGetProperty"
          (snd (efw.sdk.EFWGetProperty lib (to_c_int ids)
                  {| efw_ID := 0; efw_Name := repeat x00 64; slotNum := 0 |}
                  (world s))) s
    /\ snd (efw.EFWGetPosition lib ids s)
      = called "EFWGetPosition"
          (snd (efw.sdk.EFWGetPosition lib (to_c_int ids) 0 (world s))) s
    /\ snd (efw.EFWSetPosition lib ids x s)
      = called "EFWSetPosition"
          (snd (efw.sdk.EFWSetPosition lib (to_c_int ids) (to_c_int x) (world s))) s
    /\ snd (efw.EFWSetDirection lib ids flag s)
      = called "EFWSetDirection"
          (snd (efw.sdk.EFWSetDirection lib (to_c_int ids) flag (world s))) s
    /\ snd (efw.EFWGetDirection lib ids s)
      = called "EFWGetDirection"
          (snd (efw.sdk.EFWGetDirection lib (to_c_int ids) false (world s))) s
    /\ snd (efw.EFWCalibrate lib ids s)
      = called "EFWCalibrate" (snd (efw.sdk.EFWCalibrate lib (to_c_int ids) (world s))) s
    /\ snd (efw.EFWGetSDKVersion lib s)
      = called "EFWGetSDKVersion" (snd (efw.sdk.EFWGetSDKVersion lib (world s))) s
    /\ snd (efw.EFWGetHWErrorCode lib ids s)
      = called "EFWGetHWErrorCode"
          (snd (efw.sdk.EFWGetHWErrorCode lib (to_c_int ids) 0 (world s))) s
    /\ snd (efw.EFWGetFirmwareVersion lib ids s)
      = called "EFWGetFirmwareVersion"
          (snd (efw.sdk.EFWGetFirmwareVersion lib (to_c_int ids) (x00, x00, x00)
                  (world s))) s
    /\ snd (efw.EFWGetSerialNumber lib ids s)
      = called "EFWGetSerialNumber"
          (snd (efw.sdk.EFWGetSerialNumber lib (to_c_int ids)
                  {| efw_id := repeat x00 8 |} (world s))) s
    /\ snd (efw.EFWSetID lib ids alias s)
      = called "EFWSetID" (snd (efw.sdk.EFWSetID lib (to_c_int ids) alias (world s))) s.
Proof.
  intros W lib s ids x flag alias. repeat apply conj.
  - one_call (@efw.EFWGetNum).
  - unfold efw.EFWGetProductIDs, efw.EFW_ID_MAX. one_call (@efw.EFWGetProductIDs).
  - one_call (@efw.EFWGetID).
  - one_call (@efw.EFWOpen).
  - one_call (@efw.EFWClose).
  - one_call (@efw.EFWGetProperty).
  - one_call (@efw.EFWGetPosition).
  - one_call (@efw.EFWSetPosition).
  - one_call (@efw.EFWSetDirection).
  - one_call (@efw.EFWGetDirection).
  - one_call (@efw.EFWCalibrate).
  - one_call (@efw.EFWGetSDKVersion).
  - one_call (@efw.EFWGetHWErrorCode).
  - one_call (@efw.EFWGetFirmwareVersion).
  - one_call (@efw.EFWGetSerialNumber).
  - one_call (@efw.EFWSetID).
Qed.

(** ** Marshalling of integer arguments *)

Lemma to_c_int_range (v : Z) : - 2 ^ 31 <= to_c_int v < 2 ^ 31.
Proof.
  unfold to_c_int.
  pose proof (Z.mod_pos_bound (v + 2 ^ 31) (2 ^ 32) ltac:(lia)). lia.
Qed.

Lemma to_c_int_small (v : Z) : - 2 ^ 31 <= v < 2 ^ 31 -> to_c_int v = v.
Proof.
  intros H. unfold to_c_int. rewrite Z.mod_small; lia.
Qed.

Lemma to_c_int_wraps (v k : Z) : to_c_int (v + k * 2 ^ 32) = to_c_int v.
Proof.
  unfold to_c_int.
  replace (v + k * 2 ^ 32 + 2 ^ 31) with (v + 2 ^ 31 + k * 2 ^ 32) by lia.
  now rewrite Z.mod_add by lia.
Qed.

(** X6. Integer arguments reach the library as signed 32-bit values: the
    marshalled value always lies in [-2^31, 2^31), equals the argument when
    that already fits, and is unchanged when a multiple of 2^32 is added.  An
    out-of-range device id or position is therefore not rejected by the
    binding: [EAFMove] and [EFWSetPosition] behave exactly as they do on the
    wrapped values. *)
Theorem integer_arguments_wrap_to_32_bits :
  (forall v : Z, - 2 ^ 31 <= to_c_int v < 2 ^ 31)
  /\ (forall v : Z, - 2 ^ 31 <= v < 2 ^ 31 -> to_c_int v = v)
  /\ (forall v : Z, to_c_int (to_c_int v) = to_c_int v)
  /\ (forall W (lib : eaf.sdk.t W) (s : state W) (ids position k1 k2 : Z),
      eaf.EAFMove lib (ids + k1 * 2 ^ 32) (position + k2 * 2 ^ 32) s
        = eaf.EAFMove lib ids position s)
  /\ (forall W (lib : efw.sdk.t W) (s : state W) (ids position k1 k2 : Z),
      efw.EFWSetPosition lib (ids + k1 * 2 ^ 32) (position + k2 * 2 ^ 32) s
        = efw.EFWSetPosition lib ids position s).
Proof.
  split; [|split; [|split; [|split]]].
  - exact to_c_int_range.
  - exact to_c_int_small.
  - intros v. apply to_c_int_small, to_c_int_range.
  - intros. unfold eaf.EAFMove. now rewrite !to_c_int_wraps.
  - intros. unfold efw.EFWSetPosition. now rewrite !to_c_int_wraps.
Qed.

Lemma integer_arguments_wrap_to_32_bits_witness : to_c_int 31000 = 31000.
Proof.
  apply (proj1 (proj2 integer_arguments_wrap_to_32_bits) 31000). lia.
Defined.

(** ** Product IDs, any reported length *)

Lemma slice_to_prefix {A} (n : Z) (l : list A) :
  exists rest, l = (slice_to n l ++ rest)%list.
Proof.
  unfold slice_to. destruct (n <? 0).
  - eexists. symmetry. apply firstn_skipn.
  - eexists. symmetry. apply firstn_skipn.
Qed.

Lemma slice_to_clamped {A} (n : Z) (l : list A) :
  Z.of_nat (List.length l) <= n -> slice_to n l = l.
Proof.
  intros H. unfold slice_to.
  destruct (Z.ltb_spec n 0); [lia|].
  apply firstn_all2. lia.
Qed.

Lemma slice_to_negative {A} (n : Z) (l : list A) :
  n < 0 ->
  List.length (slice_to n l) = (List.length l - Z.to_nat (- n))%nat.
Proof.
  intros H. unfold slice_to.
  destruct (Z.ltb_spec n 0); [|lia].
  rewrite List.length_firstn. lia.
Qed.

(** X7. Whatever length the native get-product-IDs call reports, the method
    never raises: it returns the buffer cut by Python's slice rules, which is
    always a prefix of the buffer.  A length at or above the capacity returns
    the whole buffer (never more than the 128 slots), and a negative length
    is not an error but drops that many slots from the end.  This holds for
    both families. *)
Theorem product_ids_never_fail_and_stay_within_buffer :
  (forall W (lib : eaf.sdk.t W) (s : state W) (n : Z) (buffer : list Z) (w' : W),
      eaf.sdk.EAFGetProductIDs lib (repeat 0 128) (world s) = ((n, buffer), w') ->
      eaf.EAFGetProductIDs lib s
        = (Return (VTuple (slice_to n buffer)), called "EAFGetProductIDs" w' s))
  /\ (forall W (lib : efw.sdk.t W) (s : state W) (n : Z) (buffer : list Z) (w' : W),
      efw.sdk.EFWGetProductIDs lib (repeat 0 128) (world s) = ((n, buffer), w') ->
      efw.EFWGetProductIDs lib s
        = (Return (VTuple (slice_to n buffer)), called "EFWGetProductIDs" w' s))
  /\ (forall (n : Z) (buffer : list Z),
      (exists rest, buffer = (slice_to n buffer ++ rest)%list)
      /\ (Z.of_nat (List.length buffer) <= n -> slice_to n buffer = buffer)
      /\ (n < 0 ->
          List.length (slice_to n buffer)
            = (List.length buffer - Z.to_nat (- n))%nat)).
Proof.
  split; [|split].
  - intros W lib s n buffer w' H.
    unfold eaf.EAFGetProductIDs, eaf.EAF_ID_MAX. run_with H.
  - intros W lib s n buffer w' H.
    unfold efw.EFWGetProductIDs, efw.EFW_ID_MAX. run_with H.
  - intros n buffer. split; [|split].
    + apply slice_to_prefix.
    + apply slice_to_clamped.
    + apply slice_to_negative.
Qed.

Lemma product_ids_never_fail_and_stay_within_buffer_witness :
  eaf.EAFGetProductIDs (eaf_double 500 three_pids (x00, x00, x00) [] 0) start
    = (Return (VTuple (slice_to 500 three_pids)), called "EAFGetProductIDs" 1%nat start)
  /\ efw.EFWGetProductIDs (efw_double (-126) three_pids (x00, x00, x00) [] 0) start
    = (Return (VTuple (slice_to (-126) three_pids)),
       called "EFWGetProductIDs" 1%nat start)
  /\ slice_to 500 three_pids = three_pids
  /\ List.length (slice_to (-126) three_pids)
     = (List.length three_pids - Z.to_nat (- -126))%nat.
Proof.
  destruct product_ids_never_fail_and_stay_within_buffer as (H1 & H2 & H3).
  split; [|split; [|split]].
  - apply (H1 nat (eaf_double 500 three_pids (x00, x00, x00) [] 0) start
              500 three_pids 1%nat).
    reflexivity.
  - apply (H2 nat (efw_double (-126) three_pids (x00, x00, x00) [] 0) start
              (-126) three_pids 1%nat).
    reflexivity.
  - apply (proj1 (proj2 (H3 500 three_pids))). vm_compute. discriminate.
  - apply (proj2 (proj2 (H3 (-126) three_pids))). lia.
Defined.

(** ** The SDK version *)

(** X8. The SDK version is data, never a status: although a non-empty
    version string is truthy, no error is derived from it.  The focuser
    method decodes it as ASCII and returns the text, and fails with
    [UnicodeDecodeError] on a byte at or above 0x80; the filter-wheel method
    returns the bytes undecoded, whatever they are.  A NULL pointer from the
    library makes either method fail with [TypeError]. *)
Theorem sdk_version_is_data_not_status :
  (forall W (lib : eaf.sdk.t W) (s : state W) (p : option string) (w' : W),
      eaf.sdk.EAFGetSDKVersion lib (world s) = (p, w') ->
      eaf.EAFGetSDKVersion lib s
        = (match p with
           | Some b => if is_ascii b then Return (VStr b)
                       else Raise (UnicodeDecodeError b)
           | None => Raise (TypeError "cannot convert 'NoneType' object to bytes")
           end,
           called "EAFGetSDKVersion" w' s))
  /\ (forall W (lib : efw.sdk.t W) (s : state W) (p : option string) (w' : W),
      efw.sdk.EFWGetSDKVersion lib (world s) = (p, w') ->
      efw.EFWGetSDKVersion lib s
        = (match p with
           | Some b => Return (VBytes b)
           | None => Raise (TypeError "cannot convert 'NoneType' object to bytes")
           end,
           called "EFWGetSDKVersion" w' s)).
Proof.
  split.
  - intros W lib s p w' H. unfold eaf.EAFGetSDKVersion, bind, ret, raise.
    rewrite eaf_run. unfold char_p_fn0. rewrite H.
    cbn [dict_get eaf._functions_ String.eqb Ascii.eqb Bool.eqb
         set_mem existsb eaf.special_names orb negb].
    rewrite andb_false_r. cbn [char_p_of].
    destruct p as [b|]; [destruct (is_ascii b)|]; reflexivity.
  - intros W lib s p w' H. unfold efw.EFWGetSDKVersion, bind, ret, raise.
    rewrite efw_run. unfold char_p_fn0. rewrite H.
    cbn [dict_get efw._functions_ String.eqb Ascii.eqb Bool.eqb
         set_mem existsb efw.special_names orb negb].
    rewrite andb_false_r. cbn [char_p_of].
    destruct p as [b|]; reflexivity.
Qed.

Lemma sdk_version_is_data_not_status_witness :
  eaf.EAFGetSDKVersion (eaf_double 0 [] (x00, x00, x00) [] 0) start
    = (Return (VStr "1, 5, 0"), called "EAFGetSDKVersion" 1%nat start)
  /\ eaf.EAFGetSDKVersion eaf_alias_double alias_start
    = (Raise (TypeError "cannot convert 'NoneType' object to bytes"),
       called "EAFGetSDKVersion" (repeat x00 8) alias_start)
  /\ efw.EFWGetSDKVersion efw_alias_double alias_start
    = (Return (VBytes (String (ascii_of_nat 200) "1")),
       called "EFWGetSDKVersion" (repeat x00 8) alias_start).
Proof.
  destruct sdk_version_is_data_not_status as [Ha Hw].
  split; [|split].
  - apply (Ha nat (eaf_double 0 [] (x00, x00, x00) [] 0) start
              (Some "1, 5, 0") 1%nat).
    reflexivity.
  - apply (Ha (list byte) eaf_alias_double alias_start None (repeat x00 8)).
    reflexivity.
  - apply (Hw (list byte) efw_alias_double alias_start
              (Some (String (ascii_of_nat 200) "1")) (repeat x00 8)).
    reflexivity.
Defined.

(** ** Serial numbers and aliases *)

Lemma ubyte_value_inj (a b : byte) : ubyte_value a = ubyte_value b -> a = b.
Proof.
  unfold ubyte_value. intros H. apply N2Z.inj in H.
  pose proof (Byte.of_to_N a) as Ha. pose proof (Byte.of_to_N b) as Hb.
  rewrite H in Ha. congruence.
Qed.

Lemma from_bytes_acc (l : list byte) (acc : Z) :
  fold_left (fun a x => a * 256 + ubyte_value x) l acc
  = acc * 256 ^ Z.of_nat (List.length l)
    + fold_left (fun a x => a * 256 + ubyte_value x) l 0.
Proof.
  revert acc. induction l as [|x l IH]; intros acc.
  - cbn [fold_left List.length]. change (256 ^ Z.of_nat 0) with 1. lia.
  - cbn [fold_left List.length].
    rewrite (IH (acc * 256 + ubyte_value x)), (IH (0 * 256 + ubyte_value x)).
    rewrite Nat2Z.inj_succ, Z.pow_succ_r by lia. lia.
Qed.

Lemma from_bytes_bound (l : list byte) :
  0 <= int_from_bytes_big l < 256 ^ Z.of_nat (List.length l).
Proof.
  unfold int_from_bytes_big. induction l as [|x l IH].
  - cbn. lia.
  - cbn [fold_left List.length]. rewrite from_bytes_acc.
    rewrite Nat2Z.inj_succ, Z.pow_succ_r by lia.
    pose proof (ubyte_value_range x).
    assert (0 < 256 ^ Z.of_nat (List.length l)) by (apply Z.pow_pos_nonneg; lia).
    nia.
Qed.

Lemma mixed_radix_unique (p x y r r' : Z) :
  0 <= r < p -> 0 <= r' < p -> x * p + r = y * p + r' -> x = y /\ r = r'.
Proof.
  intros Hr Hr' H.
  assert (x = y) by nia. subst. split; [reflexivity | lia].
Qed.

Lemma from_bytes_inj (a b : list byte) :
  List.length a = List.length b ->
  int_from_bytes_big a = int_from_bytes_big b -> a = b.
Proof.
  revert b. induction a as [|x a IH]; intros [|y b] Hlen H;
    try discriminate Hlen; [reflexivity|].
  injection Hlen as Hlen.
  unfold int_from_bytes_big in H. cbn [fold_left] in H.
  rewrite (from_bytes_acc a), (from_bytes_acc b), <- Hlen in H.
  pose proof (from_bytes_bound a) as Ba. pose proof (from_bytes_bound b) as Bb.
  rewrite <- Hlen in Bb. unfold int_from_bytes_big in Ba, Bb.
  apply mixed_radix_unique in H; [|assumption|assumption].
  destruct H as [Hx Hr]. f_equal.
  - apply ubyte_value_inj. lia.
  - apply IH; assumption.
Qed.

(** X9. The integer the focuser returns for a serial number loses nothing:
    two serial records of the same length that decode to the same integer
    are the same bytes, and the integer of an n-byte record lies in
    [0, 256^n).  So distinct 8-byte serial numbers always show up as distinct
    integers below 2^64. *)
Theorem serial_integer_identifies_record :
  (forall a b : list byte,
      List.length a = List.length b ->
      int_from_bytes_big a = int_from_bytes_big b -> a = b)
  /\ (forall a : list byte,
      0 <= int_from_bytes_big a < 256 ^ Z.of_nat (List.length a))
  /\ (forall W (lib lib' : eaf.sdk.t W) (s s' : state W) (ids ids' : Z)
             (serial serial' : EAF_ID) (w1 w1' : W),
      eaf.sdk.EAFGetSerialNumber lib (to_c_int ids) {| eaf_id := repeat x00 8 |}
          (world s) = ((0, serial), w1) ->
      eaf.sdk.EAFGetSerialNumber lib' (to_c_int ids') {| eaf_id := repeat x00 8 |}
          (world s') = ((0, serial'), w1') ->
      List.length (eaf_id serial) = List.length (eaf_id serial') ->
      fst (eaf.EAFGetSerialNumber lib ids s) = fst (eaf.EAFGetSerialNumber lib' ids' s') ->
      serial = serial').
Proof.
  split; [|split].
  - exact from_bytes_inj.
  - exact from_bytes_bound.
  - intros W lib lib' s s' ids ids' serial serial' w1 w1' H H' Hlen.
    assert (E : eaf.EAFGetSerialNumber lib ids s
                = (Return (VInt (int_from_bytes_big (eaf_id serial))),
                   called "EAFGetSerialNumber" w1 s)).
    { unfold eaf.EAFGetSerialNumber. run_with H. }
    assert (E' : eaf.EAFGetSerialNumber lib' ids' s'
                 = (Return (VInt (int_from_bytes_big (eaf_id serial'))),
                    called "EAFGetSerialNumber" w1' s')).
    { unfold eaf.EAFGetSerialNumber. run_with H'. }
    rewrite E, E'. cbn [fst]. intros [= Hi].
    destruct serial as [a], serial' as [b]. cbn [eaf_id] in *.
    f_equal. now apply from_bytes_inj.
Qed.

Lemma serial_integer_identifies_record_witness :
  serial_five = serial_five
  /\ {| eaf_id := serial_five |} = {| eaf_id := serial_five |}.
Proof.
  destruct serial_integer_identifies_record as (H1 & _ & H3).
  split.
  - apply (H1 serial_five serial_five); reflexivity.
  - apply (H3 nat (eaf_double 0 [] (x00, x00, x00) serial_five 0)
              (eaf_double 0 [] (x00, x00, x00) serial_five 7) start start 0 1
              {| eaf_id := serial_five |} {| eaf_id := serial_five |} 1%nat 1%nat);
      reflexivity.
Defined.

Ltac run_status H :=
  unfold bind, ret;
  first [rewrite eaf_run | rewrite efw_run];
  unfold int_fn, int_fn0; cbn [called world]; rewrite H; reflexivity.

(** X10. Writing an alias and reading it back goes through the binding
    unchanged.  With a library that accepts the write (status 0) and then
    reports the stored record, set-ID followed by get-serial-number returns
    the record that was written, byte for byte, for the filter wheel, and its
    big-endian integer for the focuser; exactly those two entry points are
    invoked, in that order. *)
Theorem alias_written_then_read_back :
  (forall W (lib : eaf.sdk.t W) (s : state W) (ids : Z) (alias : EAF_ID) (w1 w2 : W),
      eaf.sdk.EAFSetID lib (to_c_int ids) alias (world s) = (0, w1) ->
      eaf.sdk.EAFGetSerialNumber lib (to_c_int ids) {| eaf_id := repeat x00 8 |} w1
        = ((0, alias), w2) ->
      bind (eaf.EAFSetID lib ids alias) (fun _ => eaf.EAFGetSerialNumber lib ids) s
        = (Return (VInt (int_from_bytes_big (eaf_id alias))),
           called "EAFGetSerialNumber" w2 (called "EAFSetID" w1 s)))
  /\ (forall W (lib : efw.sdk.t W) (s : state W) (ids : Z) (alias : EFW_ID) (w1 w2 : W),
      efw.sdk.EFWSetID lib (to_c_int ids) alias (world s) = (0, w1) ->
      efw.sdk.EFWGetSerialNumber lib (to_c_int ids) {| efw_id := repeat x00 8 |} w1
        = ((0, alias), w2) ->
      bind (efw.EFWSetID lib ids alias) (fun _ => efw.EFWGetSerialNumber lib ids) s
        = (Return (VEfwId alias),
           called "EFWGetSerialNumber" w2 (called "EFWSetID" w1 s))).
Proof.
  split.
  - intros W lib s ids alias w1 w2 Hset Hget.
    assert (E : eaf.EAFSetID lib ids alias s
                = (Return (VBool true), called "EAFSetID" w1 s)).
    { unfold eaf.EAFSetID. run_status Hset. }
    unfold bind at 1. rewrite E.
    unfold eaf.EAFGetSerialNumber. run_status Hget.
  - intros W lib s ids alias w1 w2 Hset Hget.
    assert (E : efw.EFWSetID lib ids alias s
                = (Return (VBool true), called "EFWSetID" w1 s)).
    { unfold efw.EFWSetID. run_status Hset. }
    unfold bind at 1. rewrite E.
    unfold efw.EFWGetSerialNumber. run_status Hget.
Qed.

Lemma alias_written_then_read_back_witness :
  bind (eaf.EAFSetID eaf_alias_double 3 {| eaf_id := serial_five |})
       (fun _ => eaf.EAFGetSerialNumber eaf_alias_double 3) alias_start
    = (Return (VInt 5),
       called "EAFGetSerialNumber" serial_five (called "EAFSetID" serial_five alias_start))
  /\ bind (efw.EFWSetID efw_alias_double 3 {| efw_id := serial_five |})
          (fun _ => efw.EFWGetSerialNumber efw_alias_double 3) alias_start
    = (Return (VEfwId {| efw_id := serial_five |}),
       called "EFWGetSerialNumber" serial_five (called "EFWSetID" serial_five alias_start)).
Proof.
  destruct alias_written_then_read_back as [Ha Hw].
  split.
  - apply (Ha (list byte) eaf_alias_double alias_start 3
              {| eaf_id := serial_five |} serial_five serial_five); reflexivity.
  - apply (Hw (list byte) efw_alias_double alias_start 3
              {| efw_id := serial_five |} serial_five serial_five); reflexivity.
Defined.

(** ** Loading the libraries *)

Ltac run_import Harch Hos :=
  unfold eaf.import_module, eaf._load_lib, efw.import_module, efw._load_lib,
    bind, lift, ret, CDLL;
  rewrite Harch; cbn [fst snd]; rewrite Hos;
  repeat match goal with
         | H : loadable _ _ = _ |- _ => rewrite H
         end;
  cbn [world trace]; rewrite <- ?app_assoc; reflexivity.

(** X11. Importing the focuser module on a platform of the table.  On POSIX
    [libudev.so] is loaded first and globally; if it cannot be loaded the
    import fails with [OSError] and the focuser library is not touched; if
    the focuser library itself cannot be loaded the import fails with
    [OSError] on its path.  Elsewhere only the focuser library is loaded.
    The library is always looked for under <module dir>/libs/<arch>/<file>,
    and importing never enters a native entry point nor changes the native
    world. *)
Theorem focuser_import_loads_libudev_then_library :
  forall W (env : platform) (s : state W) (dir file : string),
    eaf.arch env = Return (dir, file) ->
    (String.eqb (os_name env) "posix" = true ->
     loadable env ["libudev.so"] = false ->
     eaf.import_module env s = (Raise (OSError ["libudev.so"]), s))
    /\ (String.eqb (os_name env) "posix" = true ->
        loadable env ["libudev.so"] = true ->
        loadable env [here env; "libs"; dir; file] = false ->
        eaf.import_module env s
          = (Raise (OSError [here env; "libs"; dir; file]),
             mkState (world s) (trace s ++ [LoadLibrary true ["libudev.so"]])))
    /\ (String.eqb (os_name env) "posix" = true ->
        loadable env ["libudev.so"] = true ->
        loadable env [here env; "libs"; dir; file] = true ->
        eaf.import_module env s
          = (Return [here env; "libs"; dir; file],
             mkState (world s)
               (trace s ++ [LoadLibrary true ["libudev.so"];
                            LoadLibrary false [here env; "libs"; dir; file]])))
    /\ (String.eqb (os_name env) "posix" = false ->
        loadable env [here env; "libs"; dir; file] = true ->
        eaf.import_module env s
          = (Return [here env; "libs"; dir; file],
             mkState (world s)
               (trace s ++ [LoadLibrary false [here env; "libs"; dir; file]])))
    /\ (String.eqb (os_name env) "posix" = false ->
        loadable env [here env; "libs"; dir; file] = false ->
        eaf.import_module env s
          = (Raise (OSError [here env; "libs"; dir; file]), s)).
Proof.
  intros W env s dir file Harch.
  split; [|split; [|split; [|split]]]; intros Hos; intros; run_import Harch Hos.
Qed.

Lemma focuser_import_loads_libudev_then_library_witness :
  eaf.import_module (on "posix" "64bit" "/opt/zwo" (fun _ => false)) start
    = (Raise (OSError ["libudev.so"]), start)
  /\ eaf.import_module
       (on "posix" "64bit" "/opt/zwo"
           (fun p => match p with [_] => true | _ => false end)) start
    = (Raise (OSError ["/opt/zwo"; "libs"; "linux64"; "libEAFFocuser.so"]),
       mkState 0%nat [LoadLibrary true ["libudev.so"]])
  /\ eaf.import_module (on "posix" "64bit" "/opt/zwo" (fun _ => true)) start
    = (Return ["/opt/zwo"; "libs"; "linux64"; "libEAFFocuser.so"],
       mkState 0%nat
         [LoadLibrary true ["libudev.so"];
          LoadLibrary false ["/opt/zwo"; "libs"; "linux64"; "libEAFFocuser.so"]])
  /\ eaf.import_module (on "nt" "32bit" "C:\zwo" (fun _ => true)) start
    = (Return ["C:\zwo"; "libs"; "win32"; "EAF_focuser.dll"],
       mkState 0%nat
         [LoadLibrary false ["C:\zwo"; "libs"; "win32"; "EAF_focuser.dll"]])
  /\ eaf.import_module (on "nt" "32bit" "C:\zwo" (fun _ => false)) start
    = (Raise (OSError ["C:\zwo"; "libs"; "win32"; "EAF_focuser.dll"]), start).
Proof.
  split; [|split; [|split; [|split]]].
  - apply (proj1 (focuser_import_loads_libudev_then_library nat
             (on "posix" "64bit" "/opt/zwo" (fun _ => false)) start
             "linux64" "libEAFFocuser.so" eq_refl)); reflexivity.
  - apply (proj1 (proj2 (focuser_import_loads_libudev_then_library nat
             (on "posix" "64bit" "/opt/zwo"
                 (fun p => match p with [_] => true | _ => false end)) start
             "linux64" "libEAFFocuser.so" eq_refl))); reflexivity.
  - apply (proj1 (proj2 (proj2 (focuser_import_loads_libudev_then_library nat
             (on "posix" "64bit" "/opt/zwo" (fun _ => true)) start
             "linux64" "libEAFFocuser.so" eq_refl)))); reflexivity.
  - apply (proj1 (proj2 (proj2 (proj2 (focuser_import_loads_libudev_then_library nat
             (on "nt" "32bit" "C:\zwo" (fun _ => true)) start
             "win32" "EAF_focuser.dll" eq_refl))))); reflexivity.
  - apply (proj2 (proj2 (proj2 (proj2 (focuser_import_loads_libudev_then_library nat
             (on "nt" "32bit" "C:\zwo" (fun _ => false)) start
             "win32" "EAF_focuser.dll" eq_refl))))); reflexivity.
Defined.

(** X12. Importing the filter-wheel module behaves in the same way, except
    that its library is looked for one level deeper, under
    <module dir>/libs/efw/<arch>/<file>. *)
Theorem filter_wheel_import_loads_libudev_then_library :
  forall W (env : platform) (s : state W) (dir file : string),
    efw.arch env = Return (dir, file) ->
    (String.eqb (os_name env) "posix" = true ->
     loadable env ["libudev.so"] = false ->
     efw.import_module env s = (Raise (OSError ["libudev.so"]), s))
    /\ (String.eqb (os_name env) "posix" = true ->
        loadable env ["libudev.so"] = true ->
        loadable env [here env; "libs"; "efw"; dir; file] = false ->
        efw.import_module env s
          = (Raise (OSError [here env; "libs"; "efw"; dir; file]),
             mkState (world s) (trace s ++ [LoadLibrary true ["libudev.so"]])))
    /\ (String.eqb (os_name env) "posix" = true ->
        loadable env ["libudev.so"] = true ->
        loadable env [here env; "libs"; "efw"; dir; file] = true ->
        efw.import_module env s
          = (Return [here env; "libs"; "efw"; dir; file],
             mkState (world s)
               (trace s ++ [LoadLibrary true ["libudev.so"];
                            LoadLibrary false [here env; "libs"; "efw"; dir; file]])))
    /\ (String.eqb (os_name env) "posix" = false ->
        loadable env [here env; "libs"; "efw"; dir; file] = true ->
        efw.import_module env s
          = (Return [here env; "libs"; "efw"; dir; file],
             mkState (world s)
               (trace s ++ [LoadLibrary false [here env; "libs"; "efw"; dir; file]])))
    /\ (String.eqb (os_name env) "posix" = false ->
        loadable env [here env; "libs"; "efw"; dir; file] = false ->
        efw.import_module env s
          = (Raise (OSError [here env; "libs"; "efw"; dir; file]), s)).
Proof.
  intros W env s dir file Harch.
  split; [|split; [|split; [|split]]]; intros Hos; intros; run_import Harch Hos.
Qed.

Lemma filter_wheel_import_loads_libudev_then_library_witness :
  efw.import_module (on "posix" "32bit" "/opt/zwo" (fun _ => false)) start
    = (Raise (OSError ["libudev.so"]), start)
  /\ efw.import_module
       (on "posix" "32bit" "/opt/zwo"
           (fun p => match p with [_] => true | _ => false end)) start
    = (Raise (OSError ["/opt/zwo"; "libs"; "efw"; "linux32"; "libEFWFilter.so"]),
       mkState 0%nat [LoadLibrary true ["libudev.so"]])
  /\ efw.import_module (on "posix" "32bit" "/opt/zwo" (fun _ => true)) start
    = (Return ["/opt/zwo"; "libs"; "efw"; "linux32"; "libEFWFilter.so"],
       mkState 0%nat
         [LoadLibrary true ["libudev.so"];
          LoadLibrary false ["/opt/zwo"; "libs"; "efw"; "linux32"; "libEFWFilter.so"]])
  /\ efw.import_module (on "nt" "64bit" "C:\zwo" (fun _ => true)) start
    = (Return ["C:\zwo"; "libs"; "efw"; "win64"; "EFW_filter.dll"],
       mkState 0%nat
         [LoadLibrary false ["C:\zwo"; "libs"; "efw"; "win64"; "EFW_filter.dll"]])
  /\ efw.import_module (on "nt" "64bit" "C:\zwo" (fun _ => false)) start
    = (Raise (OSError ["C:\zwo"; "libs"; "efw"; "win64"; "EFW_filter.dll"]), start).
Proof.
  split; [|split; [|split; [|split]]].
  - apply (proj1 (filter_wheel_import_loads_libudev_then_library nat
             (on "posix" "32bit" "/opt/zwo" (fun _ => false)) start
             "linux32" "libEFWFilter.so" eq_refl)); reflexivity.
  - apply (proj1 (proj2 (filter_wheel_import_loads_libudev_then_library nat
             (on "posix" "32bit" "/opt/zwo"
                 (fun p => match p with [_] => true | _ => false end)) start
             "linux32" "libEFWFilter.so" eq_refl))); reflexivity.
  - apply (proj1 (proj2 (proj2 (filter_wheel_import_loads_libudev_then_library nat
             (on "posix" "32bit" "/opt/zwo" (fun _ => true)) start
             "linux32" "libEFWFilter.so" eq_refl)))); reflexivity.
  - apply (proj1 (proj2 (proj2 (proj2 (filter_wheel_import_loads_libudev_then_library nat
             (on "nt" "64bit" "C:\zwo" (fun _ => true)) start
             "win64" "EFW_filter.dll" eq_refl))))); reflexivity.
  - apply (proj2 (proj2 (proj2 (proj2 (filter_wheel_import_loads_libudev_then_library nat
             (on "nt" "64bit" "C:\zwo" (fun _ => false)) start
             "win64" "EFW_filter.dll" eq_refl))))); reflexivity.
Defined.

(** ** The firmware version text *)

Lemma byte_text_no_dot (b : byte) : no_dot (str_int (ubyte_value b)) = true.
Proof. destruct b; reflexivity. Qed.

Lemma byte_text_parses (b : byte) :
  NilZero.int_of_string (str_int (ubyte_value b)) = Some (Z.to_int (ubyte_value b)).
Proof. destruct b; reflexivity. Qed.

Lemma byte_text_inj (a b : byte) :
  str_int (ubyte_value a) = str_int (ubyte_value b) -> a = b.
Proof.
  intros H. apply ubyte_value_inj.
  pose proof (byte_text_parses a) as Pa. pose proof (byte_text_parses b) as Pb.
  rewrite H in Pa. rewrite Pa in Pb. injection Pb as Pb.
  rewrite <- (DecimalZ.of_to (ubyte_value a)), <- (DecimalZ.of_to (ubyte_value b)).
  now rewrite Pb.
Qed.

Lemma split_at_first_dot (a a' r r' : string) :
  no_dot a = true -> no_dot a' = true ->
  (a ++ "." ++ r)%string = (a' ++ "." ++ r')%string ->
  a = a' /\ r = r'.
Proof.
  revert a'. induction a as [|c a IH]; intros [|c' a'] Ha Ha' H.
  - cbn in H. injection H as H. now split.
  - cbn in H. injection H as Hc _. subst c'.
    unfold no_dot in Ha'. cbn in Ha'. discriminate.
  - cbn in H. injection H as Hc _. subst c.
    unfold no_dot in Ha. cbn in Ha. discriminate.
  - change (String c a ++ "." ++ r)%string with (String c (a ++ "." ++ r)) in H.
    change (String c' a' ++ "." ++ r')%string with (String c' (a' ++ "." ++ r')) in H.
    injection H as Hc H. subst c'.
    unfold no_dot in Ha, Ha'. cbn [list_ascii_of_string forallb] in Ha, Ha'.
    apply andb_true_iff in Ha, Ha'.
    destruct (IH a' (proj2 Ha) (proj2 Ha') H) as [-> ->]. now split.
Qed.

Lemma firmware_text_inj (a b c a' b' c' : byte) :
  (str_int (ubyte_value a) ++ "." ++ str_int (ubyte_value b)
   ++ "." ++ str_int (ubyte_value c))%string
  = (str_int (ubyte_value a') ++ "." ++ str_int (ubyte_value b')
     ++ "." ++ str_int (ubyte_value c'))%string ->
  (a, b, c) = (a', b', c').
Proof.
  intros H.
  apply split_at_first_dot in H; try apply byte_text_no_dot.
  destruct H as [Ha H].
  apply split_at_first_dot in H; try apply byte_text_no_dot.
  destruct H as [Hb Hc].
  apply byte_text_inj in Ha, Hb, Hc. now subst.
Qed.

(** X13. The text the focuser returns for a firmware version identifies the
    version: each component is written in decimal without a full stop, so two
    successful firmware queries return the same text only if the library
    wrote the same three bytes. *)
Theorem firmware_text_identifies_version :
  forall W (lib lib' : eaf.sdk.t W) (s s' : state W) (ids ids' : Z)
         (version version' : byte * byte * byte) (w1 w1' : W),
    eaf.sdk.EAFGetFirmwareVersion lib (to_c_int ids) (x00, x00, x00) (world s)
      = ((0, version), w1) ->
    eaf.sdk.EAFGetFirmwareVersion lib' (to_c_int ids') (x00, x00, x00) (world s')
      = ((0, version'), w1') ->
    fst (eaf.EAFGetFirmwareVersion lib ids s)
      = fst (eaf.EAFGetFirmwareVersion lib' ids' s') ->
    version = version'.
Proof.
  intros W lib lib' s s' ids ids' [[a b] c] [[a' b'] c'] w1 w1' H H'.
  assert (E : eaf.EAFGetFirmwareVersion lib ids s
              = (Return (VStr (str_int (ubyte_value a) ++ "."
                               ++ str_int (ubyte_value b) ++ "."
                               ++ str_int (ubyte_value c))),
                 called "EAFGetFirmwareVersion" w1 s)).
  { unfold eaf.EAFGetFirmwareVersion. run_with H. }
  assert (E' : eaf.EAFGetFirmwareVersion lib' ids' s'
               = (Return (VStr (str_int (ubyte_value a') ++ "."
                                ++ str_int (ubyte_value b') ++ "."
                                ++ str_int (ubyte_value c'))),
                  called "EAFGetFirmwareVersion" w1' s')).
  { unfold eaf.EAFGetFirmwareVersion. run_with H'. }
  rewrite E, E'. cbn [fst]. intros [= Ht].
  now apply firmware_text_inj.
Qed.

Lemma firmware_text_identifies_version_witness :
  (x01, x02, x0f) = (x01, x02, x0f).
Proof.
  apply (firmware_text_identifies_version nat
           (eaf_double 0 [] (x01, x02, x0f) [] 0)
           (eaf_double 0 three_pids (x01, x02, x0f) serial_five 9)
           start start 0 4 (x01, x02, x0f) (x01, x02, x0f) 1%nat 1%nat);
    reflexivity.
Defined.

(** ** Which statuses mean what *)

Lemma eaf_known_range (z : Z) : eaf_known z = true <-> -1 <= z <= 9.
Proof.
  unfold eaf_known, eaf.members. cbn [existsb eaf.code_value]. split.
  - intros H. repeat (apply orb_true_iff in H; destruct H as [H|H];
                      [apply Z.eqb_eq in H; lia|]).
    discriminate.
  - intros H.
    assert (E : z = -1 \/ z = 0 \/ z = 1 \/ z = 2 \/ z = 3 \/ z = 4 \/ z = 5
                \/ z = 6 \/ z = 7 \/ z = 8 \/ z = 9) by lia.
    repeat (destruct E as [->|E]; [reflexivity|]). now subst.
Qed.

Lemma efw_known_range (z : Z) : efw_known z = true <-> -1 <= z <= 9.
Proof.
  unfold efw_known, efw.members. cbn [existsb efw.code_value]. split.
  - intros H. repeat (apply orb_true_iff in H; destruct H as [H|H];
                      [apply Z.eqb_eq in H; lia|]).
    discriminate.
  - intros H.
    assert (E : z = -1 \/ z = 0 \/ z = 1 \/ z = 2 \/ z = 3 \/ z = 4 \/ z = 5
                \/ z = 6 \/ z = 7 \/ z = 8 \/ z = 9) by lia.
    repeat (destruct E as [->|E]; [reflexivity|]). now subst.
Qed.

Lemma eaf_known_member (z : Z) :
  eaf_known z = true -> exists code, eaf.code_value code = z.
Proof.
  unfold eaf_known. intros H. apply existsb_exists in H.
  destruct H as [c [_ H]]. exists c. now apply Z.eqb_eq.
Qed.

Lemma efw_known_member (z : Z) :
  efw_known z = true -> exists code, efw.code_value code = z.
Proof.
  unfold efw_known. intros H. apply existsb_exists in H.
  destruct H as [c [_ H]]. exists c. now apply Z.eqb_eq.
Qed.

(** X14. For a status-returning entry point the native status falls in
    exactly one of three classes, in both families: 0 returns; -1 and 1..9
    are the values of the enumeration's error members and raise the family's
    typed error for the member with that value; every other integer (below
    -1 or above 9) raises the enumeration's [ValueError]. *)
Theorem status_classes_by_value :
  (forall W C (name : string) (fn : native W (cresult * C)) (s : state W)
          (z : Z) (cells : C) (w' : W),
      entry_point eaf._functions_ name = true ->
      set_mem name eaf.special_names = false ->
      fn (world s) = ((RInt z, cells), w') ->
      (z = 0 ->
       eaf._eaf name fn s = (Return (RInt 0, cells), called name w' s))
      /\ (-1 <= z <= 9 -> z <> 0 ->
          exists code,
            eaf.code_value code = z
            /\ eaf._eaf name fn s
               = (Raise (ZwoFocuserError (eaf.code_name code)), called name w' s))
      /\ (z < -1 \/ 9 < z ->
          eaf._eaf name fn s
            = (Raise (ValueError (RInt z) "EAF_ERROR_CODE"), called name w' s)))
  /\ (forall W C (name : string) (fn : native W (cresult * C)) (s : state W)
             (z : Z) (cells : C) (w' : W),
      entry_point efw._functions_ name = true ->
      set_mem name efw.special_names = false ->
      fn (world s) = ((RInt z, cells), w') ->
      (z = 0 ->
       efw._efw name fn s = (Return (RInt 0, cells), called name w' s))
      /\ (-1 <= z <= 9 -> z <> 0 ->
          exists code,
            efw.code_value code = z
            /\ efw._efw name fn s
               = (Raise (ZwoFilterWheelError
                           (name ++ " error " ++ str_int z
                            ++ " (" ++ efw.code_name code ++ ")")),
                  called name w' s))
      /\ (z < -1 \/ 9 < z ->
          efw._efw name fn s
            = (Raise (ValueError (RInt z) "EFW_ERROR_CODE"), called name w' s))).
Proof.
  split.
  - intros W C name fn s z cells w' He Hs Hfn.
    rewrite (eaf_checked_run name fn s z cells w' He Hs Hfn).
    split; [|split].
    + now intros ->.
    + intros Hr Hz. destruct (eaf_known_member z (proj2 (eaf_known_range z) Hr))
        as [code <-].
      exists code. split; [reflexivity|].
      destruct (Z.eqb_spec (eaf.code_value code) 0); [contradiction|].
      now rewrite eaf_failure_member.
    + intros Hr. destruct (Z.eqb_spec z 0); [lia|].
      rewrite eaf_failure_unknown; [reflexivity|].
      destruct (eaf_known z) eqn:Ek; [|reflexivity].
      apply eaf_known_range in Ek. lia.
  - intros W C name fn s z cells w' He Hs Hfn.
    rewrite (efw_checked_run name fn s z cells w' He Hs Hfn).
    split; [|split].
    + now intros ->.
    + intros Hr Hz. destruct (efw_known_member z (proj2 (efw_known_range z) Hr))
        as [code <-].
      exists code. split; [reflexivity|].
      destruct (Z.eqb_spec (efw.code_value code) 0); [contradiction|].
      now rewrite efw_failure_member.
    + intros Hr. destruct (Z.eqb_spec z 0); [lia|].
      rewrite efw_failure_unknown; [reflexivity|].
      destruct (efw_known z) eqn:Ek; [|reflexivity].
      apply efw_known_range in Ek. lia.
Qed.

Lemma status_classes_by_value_witness :
  (exists code,
      eaf.code_value code = -1
      /\ eaf._eaf "EAFOpen" (fun w : nat => ((RInt (-1), tt), S w)) start
         = (Raise (ZwoFocuserError (eaf.code_name code)), called "EAFOpen" 1%nat start))
  /\ eaf._eaf "EAFOpen" (fun w : nat => ((RInt 10, tt), S w)) start
     = (Raise (ValueError (RInt 10) "EAF_ERROR_CODE"), called "EAFOpen" 1%nat start)
  /\ efw._efw "EFWClose" (fun w : nat => ((RInt 0, tt), S w)) start
     = (Return (RInt 0, tt), called "EFWClose" 1%nat start)
  /\ efw._efw "EFWClose" (fun w : nat => ((RInt (-2), tt), S w)) start
     = (Raise (ValueError (RInt (-2)) "EFW_ERROR_CODE"), called "EFWClose" 1%nat start).
Proof.
  destruct status_classes_by_value as [Ha Hw].
  split; [|split; [|split]].
  - apply (proj1 (proj2 (Ha nat unit "EAFOpen" (fun w : nat => ((RInt (-1), tt), S w))
                            start (-1) tt 1%nat eq_refl eq_refl eq_refl))); lia.
  - apply (proj2 (proj2 (Ha nat unit "EAFOpen" (fun w : nat => ((RInt 10, tt), S w))
                            start 10 tt 1%nat eq_refl eq_refl eq_refl))); lia.
  - apply (proj1 (Hw nat unit "EFWClose" (fun w : nat => ((RInt 0, tt), S w))
                     start 0 tt 1%nat eq_refl eq_refl eq_refl)); reflexivity.
  - apply (proj2 (proj2 (Hw nat unit "EFWClose" (fun w : nat => ((RInt (-2), tt), S w))
                            start (-2) tt 1%nat eq_refl eq_refl eq_refl))); lia.
Defined.

(** ** The tables agree *)




(** ** A library that cannot be loaded *)

(** X16. On a platform of the table, if the family's library cannot be
    loaded, or on POSIX if [libudev.so] cannot, a script that imports the
    module fails with [OSError] before its own statements run: the native
    world is unchanged and whatever was added to the trace is library loads,
    never a call into an entry point. *)
Theorem unloadable_library_stops_script :
  (forall W A (env : platform) (body : M W A) (s : state W) (dir file : string),
      eaf.arch env = Return (dir, file) ->
      loadable env [here env; "libs"; dir; file] = false
      \/ (String.eqb (os_name env) "posix" = true
          /\ loadable env ["libudev.so"] = false) ->
      exists path loads,
        eaf.script env body s
          = (Raise (OSError path), mkState (world s) (trace s ++ loads))
        /\ forallb is_load loads = true)
  /\ (forall W A (env : platform) (body : M W A) (s : state W) (dir file : string),
      efw.arch env = Return (dir, file) ->
      loadable env [here env; "libs"; "efw"; dir; file] = false
      \/ (String.eqb (os_name env) "posix" = true
          /\ loadable env ["libudev.so"] = false) ->
      exists path loads,
        efw.script env body s
          = (Raise (OSError path), mkState (world s) (trace s ++ loads))
        /\ forallb is_load loads = true).
Proof.
  split.
  - intros W A env body s dir file Harch H.
    unfold eaf.script, eaf.import_module, eaf._load_lib, bind, lift, ret, CDLL.
    rewrite Harch. cbn [fst snd].
    destruct (String.eqb (os_name env) "posix") eqn:Hos;
      destruct (loadable env ["libudev.so"]) eqn:Hu;
      destruct (loadable env [here env; "libs"; dir; file]) eqn:Hl;
      cbn [world trace];
      try (destruct H as [H|[H1 H2]]; discriminate);
      try (exists ["libudev.so"], []; rewrite app_nil_r; destruct s; now split);
      try (exists [here env; "libs"; dir; file], []; rewrite app_nil_r;
           destruct s; now split);
      exists [here env; "libs"; dir; file], [LoadLibrary true ["libudev.so"]];
      now split.
  - intros W A env body s dir file Harch H.
    unfold efw.script, efw.import_module, efw._load_lib, bind, lift, ret, CDLL.
    rewrite Harch. cbn [fst snd].
    destruct (String.eqb (os_name env) "posix") eqn:Hos;
      destruct (loadable env ["libudev.so"]) eqn:Hu;
      destruct (loadable env [here env; "libs"; "efw"; dir; file]) eqn:Hl;
      cbn [world trace];
      try (destruct H as [H|[H1 H2]]; discriminate);
      try (exists ["libudev.so"], []; rewrite app_nil_r; destruct s; now split);
      try (exists [here env; "libs"; "efw"; dir; file], []; rewrite app_nil_r;
           destruct s; now split);
      exists [here env; "libs"; "efw"; dir; file], [LoadLibrary true ["libudev.so"]];
      now split.
Qed.

Lemma unloadable_library_stops_script_witness :
  (exists path loads,
      eaf.script (on "posix" "64bit" "/opt/zwo"
                     (fun p => match p with [_] => true | _ => false end))
                 (eaf.EAFGetNum (eaf_double 1 [] (x00, x00, x00) [] 0)) start
        = (Raise (OSError path), mkState (world start) (trace start ++ loads))
      /\ forallb is_load loads = true)
  /\ (exists path loads,
      efw.script (on "posix" "64bit" "/opt/zwo" (fun _ => false))
                 (efw.EFWGetNum (efw_double 1 [] (x00, x00, x00) [] 0)) start
        = (Raise (OSError path), mkState (world start) (trace start ++ loads))
      /\ forallb is_load loads = true).
Proof.
  split.
  - apply (proj1 unloadable_library_stops_script nat value
             (on "posix" "64bit" "/opt/zwo"
                 (fun p => match p with [_] => true | _ => false end))
             (eaf.EAFGetNum (eaf_double 1 [] (x00, x00, x00) [] 0)) start
             "linux64" "libEAFFocuser.so" eq_refl).
    left. reflexivity.
  - apply (proj2 unloadable_library_stops_script nat value
             (on "posix" "64bit" "/opt/zwo" (fun _ => false))
             (efw.EFWGetNum (efw_double 1 [] (x00, x00, x00) [] 0)) start
             "linux64" "libEFWFilter.so" eq_refl).
    right. split; reflexivity.
Defined.
